(** * In-silico perturbation of a count matrix

    A shallow embedding of [notebooks/step1_insilico_perturbation.ipynb]:
    [simulate_count_data] and [perturb_genes_counts], together with the part
    of numpy, pandas and anndata the two functions call.

    Conventions of the model.
    - Objects that Python handles by reference (the ndarray behind
      [adata.X], the data frames [adata.obs] and [adata.var]) live in a
      store, addressed by locations; an [AnnData] value holds three
      locations.  Copying allocates, writing through a location is seen by
      every holder of that location.
    - The process-wide random source of [np.random] is a component of the
      state: a tape of outcomes and a cursor.  Every outcome sequence is a
      tape, so a statement for all tapes is a statement for all runs.
    - [print] appends a line to [stdout].
    - Exceptions are results: a computation returns [Ok v] or [Raise e],
      with the state reached at that point.
    - Numbers are mathematical: an entry of an integer array is a [Z], a
      float64 is a rational [Q].  The rounding of float64 and the width of
      a fixed-size integer dtype are not part of the model. *)

From Stdlib Require Import ZArith QArith Lia.
From stdpp Require Import gmap strings list pretty.

Local Open Scope Z_scope.

(** ** Exceptions and the state *)

Inductive exn :=
| ValueError (msg : string)
| KeyError (key : string)
| IndexError (msg : string)
| InvalidReference.  (* a location with no object: no Python program has one *)

Inductive result (A : Type) :=
| Ok (a : A)
| Raise (e : exn).
Arguments Ok {A} a.
Arguments Raise {A} e.

Abbreviation loc := positive.

(** A two-dimensional ndarray: its shape and its rows, tagged by the kind of
    its dtype ([np.issubdtype(dtype, np.integer)] or not). *)
Inductive payload :=
| Ints (rows : list (list Z))
| Floats (rows : list (list Q)).

Record ndarray := NDArray { n_rows : nat; n_cols : nat; data : payload }.

(** A one-dimensional slice of an ndarray, of the dtype of the array. *)
Inductive vector :=
| IntVec (v : list Z)
| FloatVec (v : list Q).

(** A pandas data frame, as far as the notebook uses one: the index labels
    and the columns, each a list of strings. *)
Record DataFrame := { index : list string; columns : gmap string (list string) }.

(** The global [np.random] generator: [tape i] is the outcome of the
    [i]-th draw that consults the generator. *)
Record RandomState := { tape : nat -> N; cursor : nat }.

Record world := World {
  arrays : gmap loc ndarray;
  frames : gmap loc DataFrame;
  rng : RandomState;
  stdout : list string
}.

Definition M (A : Type) : Type := world -> result A * world.

#[global] Instance M_ret : MRet M := fun A a w => (Ok a, w).
#[global] Instance M_bind : MBind M := fun A B f m w =>
  match m w with
  | (Ok a, w') => f a w'
  | (Raise e, w') => (Raise e, w')
  end.

Definition raise {A} (e : exn) : M A := fun w => (Raise e, w).

Definition lift_result {A} (r : result A) : M A := fun w => (r, w).

(** [for x in xs: body(x)]; an exception leaves the loop. *)
Fixpoint for_each {A} (xs : list A) (body : A -> M unit) : M unit :=
  match xs with
  | [] => mret tt
  | x :: xs' => body x;; for_each xs' body
  end.

(** [[f(x) for x in xs]] with an effectful [f], left to right. *)
Fixpoint map_M {A B} (f : A -> M B) (xs : list A) : M (list B) :=
  match xs with
  | [] => mret []
  | x :: xs' => y ← f x; ys ← map_M f xs'; mret (y :: ys)
  end.

Definition print (line : string) : M unit := fun w =>
  (Ok tt, World (arrays w) (frames w) (rng w) (stdout w ++ [line])).

(** ** The store *)

Definition read_array (l : loc) : M ndarray := fun w =>
  match arrays w !! l with
  | Some a => (Ok a, w)
  | None => (Raise InvalidReference, w)
  end.

Definition write_array (l : loc) (a : ndarray) : M unit := fun w =>
  (Ok tt, World (<[l := a]> (arrays w)) (frames w) (rng w) (stdout w)).

Definition alloc_array (a : ndarray) : M loc := fun w =>
  let l := fresh (dom (arrays w)) in
  (Ok l, World (<[l := a]> (arrays w)) (frames w) (rng w) (stdout w)).

Definition read_frame (l : loc) : M DataFrame := fun w =>
  match frames w !! l with
  | Some d => (Ok d, w)
  | None => (Raise InvalidReference, w)
  end.

Definition write_frame (l : loc) (d : DataFrame) : M unit := fun w =>
  (Ok tt, World (arrays w) (<[l := d]> (frames w)) (rng w) (stdout w)).

Definition alloc_frame (d : DataFrame) : M loc := fun w =>
  let l := fresh (dom (frames w)) in
  (Ok l, World (arrays w) (<[l := d]> (frames w)) (rng w) (stdout w)).

(** ** numpy *)

(** [float -> int] conversion of [astype(int)]: towards zero. *)
Definition Qtrunc (q : Q) : Z := Z.quot (Qnum q) (Z.pos (Qden q)).

Definition Qlt_bool (a b : Q) : bool := negb (Qle_bool b a).

Module np.

(** [np.issubdtype(a.dtype, np.integer)] *)
Definition issubdtype_integer (a : ndarray) : bool :=
  match data a with
  | Ints _ => true
  | Floats _ => false
  end.

(** [a[:, j]] *)
Definition get_column (a : ndarray) (j : nat) : result vector :=
  if decide (j < n_cols a)%nat then
    Ok match data a with
       | Ints rows => IntVec ((fun r => default 0 (r !! j)) <$> rows)
       | Floats rows => FloatVec ((fun r => default 0%Q (r !! j)) <$> rows)
       end
  else Raise (IndexError "index is out of bounds for axis 1").

(** [a[:, j] = v] for an integer vector [v] with one entry per row; the
    entries are cast to the dtype of [a]. *)
Definition set_column (a : ndarray) (j : nat) (v : list Z) : result ndarray :=
  if decide (j < n_cols a)%nat then
    if decide (length v = n_rows a) then
      Ok (NDArray (n_rows a) (n_cols a)
            match data a with
            | Ints rows => Ints (zip_with (fun r x => <[j := x]> r) rows v)
            | Floats rows =>
                Floats (zip_with (fun r x => <[j := inject_Z x]> r) rows v)
            end)
    else Raise (ValueError "could not broadcast input array")
  else Raise (IndexError "index is out of bounds for axis 1").

(** [v * k] for a float [k]: a float array whatever the dtype of [v]. *)
Definition mul_scalar (v : vector) (k : Q) : list Q :=
  match v with
  | IntVec v => (fun c => inject_Z c * k)%Q <$> v
  | FloatVec v => (fun c => c * k)%Q <$> v
  end.

(** [v.astype(int)] of a float array *)
Definition astype_int (v : list Q) : list Z := Qtrunc <$> v.

(** [np.maximum(v, m)] *)
Definition maximum (v : list Z) (m : Z) : list Z := (fun c => Z.max c m) <$> v.

(** [k * v] for a float [k] and an integer array [v] *)
Definition scalar_mul (k : Q) (v : list Z) : list Q :=
  (fun c => k * inject_Z c)%Q <$> v.

(** [v += n] *)
Definition add (v n : list Z) : list Z := zip_with Z.add v n.

(** [np.clip(v, lo, None)] *)
Definition clip_min (v : list Z) (lo : Z) : list Z := (fun c => Z.max lo c) <$> v.

(** The next outcome on the tape. *)
Definition next_outcome : M N := fun w =>
  let r := rng w in
  (Ok (tape r (cursor r)),
   World (arrays w) (frames w)
     {| tape := tape r; cursor := S (cursor r) |} (stdout w)).

(** One Poisson draw of intensity [lam]: zero when [lam] is zero, without
    consulting the generator, and otherwise whatever the generator gives. *)
Definition poisson_draw (lam : Q) : M Z :=
  if Qeq_bool lam 0 then mret 0
  else n ← next_outcome; mret (Z.of_N n).

(** [np.random.poisson(lam=lam)] for an array of intensities: one draw per
    entry, after the check that no intensity is negative. *)
Definition random_poisson (lam : list Q) : M (list Z) :=
  if existsb (fun l => Qlt_bool l 0) lam then raise (ValueError "lam < 0")
  else map_M poisson_draw lam.

(** One uniform draw in [[low, high)]. *)
Definition randint_draw (low high : Z) : M Z :=
  n ← next_outcome; mret (low + Z.of_N n mod (high - low)).

(** [np.random.randint(low, high, size=(r, c))]: a new integer array, filled
    row by row. *)
Definition random_randint (low high : Z) (r c : Z) : M loc :=
  if decide (high <= low) then raise (ValueError "low >= high")
  else if decide (r < 0 \/ c < 0) then
    raise (ValueError "negative dimensions are not allowed")
  else
    rows ← map_M (fun _ => map_M (fun _ => randint_draw low high)
                                (seq 0 (Z.to_nat c)))
                 (seq 0 (Z.to_nat r));
    alloc_array (NDArray (Z.to_nat r) (Z.to_nat c) (Ints rows)).

(** [a[:, j]] and [a[:, j] = v] through the reference [a]. *)
Definition getitem_column (l : loc) (j : nat) : M vector :=
  a ← read_array l; lift_result (get_column a j).

Definition setitem_column (l : loc) (j : nat) (v : list Z) : M unit :=
  a ← read_array l; a' ← lift_result (set_column a j v); write_array l a'.

End np.

(** ** pandas *)

Module pd.

(** [df.index = labels] *)
Definition set_index (l : loc) (labels : list string) : M unit :=
  d ← read_frame l;
  if decide (length labels = length (index d)) then
    write_frame l {| index := labels; columns := columns d |}
  else raise (ValueError "Length mismatch").

(** [df[key] = values] *)
Definition set_column (l : loc) (key : string) (values : list string) : M unit :=
  d ← read_frame l;
  if decide (length values = length (index d)) then
    write_frame l {| index := index d; columns := <[key := values]> (columns d) |}
  else raise (ValueError "Length of values does not match length of index").

(** [df[key].tolist()] *)
Definition column_tolist (l : loc) (key : string) : M (list string) :=
  d ← read_frame l;
  match columns d !! key with
  | Some values => mret values
  | None => raise (KeyError key)
  end.

End pd.

(** [names.index(x)]: the position of the first occurrence. *)
Definition list_index (names : list string) (x : string) : M nat :=
  match list_find (fun y => y = x) names with
  | Some (i, _) => mret i
  | None => raise (ValueError (x +:+ " is not in list"))
  end.

(** ** anndata *)

Module anndata.

(** The references an [AnnData] object holds. *)
Record AnnData := { X : loc; obs : loc; var : loc }.

(** [AnnData(X = x)]: the observations and the variables get the default
    labels ["0"], ["1"], ... *)
Definition new (x : loc) : M AnnData :=
  a ← read_array x;
  o ← alloc_frame {| index := pretty <$> seq 0 (n_rows a); columns := ∅ |};
  v ← alloc_frame {| index := pretty <$> seq 0 (n_cols a); columns := ∅ |};
  mret {| X := x; obs := o; var := v |}.

Definition n_obs (adata : AnnData) : M nat :=
  d ← read_frame (obs adata); mret (length (index d)).

Definition n_vars (adata : AnnData) : M nat :=
  d ← read_frame (var adata); mret (length (index d)).

(** [adata.copy()]: a new array and two new frames, with the contents of
    the old ones. *)
Definition copy (adata : AnnData) : M AnnData :=
  a ← read_array (X adata);
  o ← read_frame (obs adata);
  v ← read_frame (var adata);
  x' ← alloc_array a;
  o' ← alloc_frame o;
  v' ← alloc_frame v;
  mret {| X := x'; obs := o'; var := v' |}.

(** [adata.X = x]: the array must have the shape of the object. *)
Definition set_X (adata : AnnData) (x : loc) : M AnnData :=
  a ← read_array x;
  n ← n_obs adata;
  m ← n_vars adata;
  if decide (n_rows a = n /\ n_cols a = m) then
    mret {| X := x; obs := obs adata; var := var adata |}
  else raise (ValueError "Data matrix has wrong shape").

End anndata.

Import anndata (AnnData).

(** ** The notebook *)

Definition simulate_count_data (n_gene n_samples : Z) (max_count : Z) : M AnnData :=
  x ← np.random_randint 0 512 n_gene n_samples;
  adata ← anndata.new x;
  n_obs ← anndata.n_obs adata;
  let samples := (fun i : nat => "CELL" +:+ pretty i) <$> seq 0 n_obs in
  n_vars ← anndata.n_vars adata;
  let gene_names := (fun i : nat => "GENE" +:+ pretty i) <$> seq 0 n_vars in
  pd.set_index (anndata.obs adata) samples;;
  pd.set_index (anndata.var adata) gene_names;;
  pd.set_column (anndata.obs adata) "samples" samples;;
  pd.set_column (anndata.var adata) "gene_names" gene_names;;
  mret adata.

Definition ERR_DTYPE : exn := ValueError "Count matrix must contain integer values.".
Definition ERR_KNOCK_TYPE : exn :=
  ValueError "knock_type must be 'knock-up' or 'knock-down'".

(** The body of the loop over [target_genes]. *)
Definition perturb_gene (adata perturbed_adata : AnnData) (X : loc)
    (gene_names : string) (knock_type : string) (fold_change noise_level : Q)
    (gene : string) : M unit :=
  names ← pd.column_tolist (anndata.var adata) gene_names;
  if bool_decide (gene ∉ names) then
    print ("Gene " +:+ gene +:+ " not found in the dataset!")
  else
    names' ← pd.column_tolist (anndata.var perturbed_adata) gene_names;
    gene_idx ← list_index names' gene;
    original_counts ← np.getitem_column X gene_idx;
    perturbed_counts ←
      (if decide (knock_type = "knock-down") then
         mret (np.astype_int (np.mul_scalar original_counts (1 - fold_change)))
       else if decide (knock_type = "knock-up") then
         mret (np.astype_int (np.mul_scalar original_counts (1 + fold_change)))
       else raise ERR_KNOCK_TYPE);
    noise ← np.random_poisson
              (np.scalar_mul noise_level (np.maximum perturbed_counts 1));
    let perturbed_counts := np.add perturbed_counts noise in
    let perturbed_counts := np.clip_min perturbed_counts 0 in
    np.setitem_column X gene_idx perturbed_counts.

Definition perturb_genes_counts (adata : AnnData) (gene_names : string)
    (target_genes : list string) (knock_type : string)
    (fold_change noise_level : Q) : M AnnData :=
  perturbed_adata ← anndata.copy adata;
  let X := anndata.X perturbed_adata in
  a ← read_array X;
  if negb (np.issubdtype_integer a) then raise ERR_DTYPE
  else
    for_each target_genes
      (perturb_gene adata perturbed_adata X gene_names knock_type
         fold_change noise_level);;
    anndata.set_X perturbed_adata X.

(** * Notions for the statements and the proofs *)

(** The state [w] with the cursor of its generator moved to [c]. *)
Definition with_cursor (w : world) (c : nat) : world :=
  World (arrays w) (frames w) {| tape := tape (rng w); cursor := c |} (stdout w).

(** The entry in row [i] and column [j], when there is one. *)
Definition entry (rows : list (list Z)) (i j : nat) : option Z :=
  rows !! i ≫= fun r => r !! j.

(** The column [j] of an integer matrix, as [np.get_column] reads it. *)
Definition column (j : nat) (rows : list (list Z)) : list Z :=
  (fun r => default 0 (r !! j)) <$> rows.

(** The rows after [v] is written to the column [j], as [np.set_column]
    writes it. *)
Definition write_column (j : nat) (rows : list (list Z)) (v : list Z) :
    list (list Z) :=
  zip_with (fun r x => <[j := x]> r) rows v.

(** The multiplier of the counts: [1 - fold_change] or [1 + fold_change]. *)
Definition knock_factor (knock_type : string) (fold_change : Q) : option Q :=
  if decide (knock_type = "knock-down") then Some (1 - fold_change)%Q
  else if decide (knock_type = "knock-up") then Some (1 + fold_change)%Q
  else None.

(** The counts after the multiplication and the conversion to integers. *)
Definition scaled_counts (k : Q) (col : list Z) : list Z :=
  np.astype_int (np.mul_scalar (IntVec col) k).

(** The intensities given to [np.random.poisson]. *)
Definition intensities (noise_level k : Q) (col : list Z) : list Q :=
  np.scalar_mul noise_level (np.maximum (scaled_counts k col) 1).

(** The counts written back. *)
Definition new_counts (k : Q) (col noise : list Z) : list Z :=
  np.clip_min (np.add (scaled_counts k col) noise) 0.

(** The line printed for a target name that is not in the gene index. *)
Definition missing_line (gene : string) : string :=
  "Gene " +:+ gene +:+ " not found in the dataset!".

(** The state [w] with the rows of the integer array at [l] replaced. *)
Definition put_rows (w : world) (l : loc) (n m : nat) (rows : list (list Z)) :
    world :=
  World (<[l := NDArray n m (Ints rows)]> (arrays w)) (frames w) (rng w)
    (stdout w).

(** In the state [w], [adata] is an object whose matrix is [a] and whose two
    frames are [o] and [v]. *)
Definition object_at (w : world) (adata : AnnData) (a : ndarray)
    (o v : DataFrame) : Prop :=
  arrays w !! anndata.X adata = Some a /\
  frames w !! anndata.obs adata = Some o /\
  frames w !! anndata.var adata = Some v.

(** [n] rows of [m] entries each. *)
Definition rectangular {A} (n m : nat) (rows : list (list A)) : Prop :=
  length rows = n /\ Forall (fun r => length r = m) rows.

(** What anndata maintains of every object: the matrix has its declared
    shape, one observation label per row, one variable label per column, and
    every column of the variables frame has one value per variable. *)
Definition well_shaped (a : ndarray) (o v : DataFrame) : Prop :=
  match data a with
  | Ints rows => rectangular (n_rows a) (n_cols a) rows
  | Floats rows => rectangular (n_rows a) (n_cols a) rows
  end /\
  length (index o) = n_rows a /\
  length (index v) = n_cols a /\
  map_Forall (fun _ values => length values = n_cols a) (columns v).

(** The object that [adata.copy()] returns in the state [w], and the state
    it leaves. *)
Definition copy_of (w : world) (o : DataFrame) : AnnData :=
  {| anndata.X := fresh (dom (arrays w));
     anndata.obs := fresh (dom (frames w));
     anndata.var := fresh (dom (<[fresh (dom (frames w)) := o]> (frames w))) |}.

Definition after_copy (w : world) (a : ndarray) (o v : DataFrame) : world :=
  World (<[anndata.X (copy_of w o) := a]> (arrays w))
        (<[anndata.var (copy_of w o) := v]>
           (<[anndata.obs (copy_of w o) := o]> (frames w)))
        (rng w) (stdout w).

(** [m] changes no frame and no array except, possibly, the one at [l]. *)
Definition only_writes (l : loc) {A} (m : M A) : Prop :=
  forall w r w', m w = (r, w') ->
    frames w' = frames w /\
    forall l', l' <> l -> arrays w' !! l' = arrays w !! l'.

(** [m] changes no array. *)
Definition keeps_arrays {A} (m : M A) : Prop :=
  forall w r w', m w = (r, w') -> arrays w' = arrays w.

(** What holds of the state between two iterations: the caller's object and
    the copy both carry the gene index [names], and the array of the copy is
    an [n] by [m] integer array with the rows [rows]. *)
Record loop_inv (adata padata : AnnData) (gene_names : string)
    (names : list string) (n m : nat) (w : world) (rows : list (list Z)) :
    Prop := {
  inv_var : exists v, frames w !! anndata.var adata = Some v /\
                      columns v !! gene_names = Some names;
  inv_var' : exists v, frames w !! anndata.var padata = Some v /\
                       columns v !! gene_names = Some names /\
                       length (index v) = m;
  inv_obs' : exists o, frames w !! anndata.obs padata = Some o /\
                       length (index o) = n;
  inv_X : arrays w !! anndata.X padata = Some (NDArray n m (Ints rows));
  inv_rows : length rows = n;
  inv_width : Forall (fun r => length r = m) rows;
  inv_names : length names = m
}.

(** ** A small data set *)

Definition ex_matrix : ndarray := NDArray 2 3 (Ints [[3; 10; 17]; [24; 31; 38]]).

Definition ex_obs : DataFrame :=
  {| index := ["CELL0"; "CELL1"];
     columns := {["samples" := ["CELL0"; "CELL1"]]} |}.

Definition ex_var : DataFrame :=
  {| index := ["GENE0"; "GENE1"; "GENE2"];
     columns := {["gene_names" := ["GENE0"; "GENE1"; "GENE2"]]} |}.

Definition ex_rng : RandomState :=
  {| tape := fun i => N.of_nat (7 * i + 45); cursor := 0 |}.

Definition ex_world : world :=
  World {[1%positive := ex_matrix]} {[1%positive := ex_obs; 2%positive := ex_var]}
    ex_rng [].

Definition ex_adata : AnnData :=
  {| anndata.X := 1%positive; anndata.obs := 1%positive; anndata.var := 2%positive |}.

Definition ex_float_matrix : ndarray :=
  NDArray 2 3 (Floats [[0.5; 10; 17]; [24; 31; 38]]%Q).

Definition ex_float_world : world :=
  World {[1%positive := ex_float_matrix]}
    {[1%positive := ex_obs; 2%positive := ex_var]} ex_rng [].

(** The labels [prefix0], [prefix1], ... of [simulate_count_data]
    ([f"CELL{i:d}"], [f"GENE{i:d}"]). *)
Definition labels (prefix : string) (n : nat) : list string :=
  (fun i : nat => prefix +:+ pretty i) <$> seq 0 n.

(** A frame whose index is [labels prefix n] and whose only column, [key],
    holds the same labels. *)
Definition labelled_frame (key prefix : string) (n : nat) : DataFrame :=
  {| index := labels prefix n; columns := {[key := labels prefix n]} |}.

(** A state with no object, for the runs of [simulate_count_data]. *)
Definition ex_empty_world : world := World ∅ ∅ ex_rng [].

(** The small data set with the name GENE0 on two variables. *)
Definition ex_dup_var : DataFrame :=
  {| index := ["GENE0"; "GENE1"; "GENE0"];
     columns := {["gene_names" := ["GENE0"; "GENE1"; "GENE0"]]} |}.

Definition ex_dup_world : world :=
  World {[1%positive := ex_matrix]}
    {[1%positive := ex_obs; 2%positive := ex_dup_var]} ex_rng [].


(** * Properties *)

(** ** Running a computation *)

Lemma run_bind {A B} (f : A -> M B) (m : M A) (w : world) :
  (m ≫= f) w =
  match m w with
  | (Ok a, w') => f a w'
  | (Raise e, w') => (Raise e, w')
  end.
Proof. reflexivity. Qed.

Lemma run_bind_Ok {A B} (f : A -> M B) (m : M A) (w w' : world) (a : A) :
  m w = (Ok a, w') -> (m ≫= f) w = f a w'.
Proof. intros H. rewrite run_bind, H. reflexivity. Qed.

Lemma run_bind_Raise {A B} (f : A -> M B) (m : M A) (w w' : world) (e : exn) :
  m w = (Raise e, w') -> (m ≫= f) w = (Raise e, w').
Proof. intros H. rewrite run_bind, H. reflexivity. Qed.

Lemma for_each_app {A} (xs ys : list A) (body : A -> M unit) (w : world) :
  for_each (xs ++ ys) body w =
  match for_each xs body w with
  | (Ok _, w') => for_each ys body w'
  | (Raise e, w') => (Raise e, w')
  end.
Proof.
  revert w. induction xs as [|x xs IH]; intros w; simpl; [reflexivity|].
  rewrite !run_bind. destruct (body x w) as [[[]|e] w1]; [apply IH|reflexivity].
Qed.

(** ** The generator *)

Lemma with_cursor_id (w : world) : with_cursor w (cursor (rng w)) = w.
Proof. destruct w as [ar fr [t c] out]. reflexivity. Qed.

Lemma with_cursor_twice (w : world) (c c' : nat) :
  with_cursor (with_cursor w c) c' = with_cursor w c'.
Proof. reflexivity. Qed.

Lemma poisson_draw_run (lam : Q) (w : world) :
  exists n c, np.poisson_draw lam w = (Ok n, with_cursor w c) /\ 0 <= n /\
              (Qeq_bool lam 0 = true -> n = 0 /\ c = cursor (rng w)).
Proof.
  unfold np.poisson_draw. destruct (Qeq_bool lam 0) eqn:E.
  - exists 0, (cursor (rng w)). rewrite with_cursor_id. auto with lia.
  - exists (Z.of_N (tape (rng w) (cursor (rng w)))), (S (cursor (rng w))).
    split; [reflexivity|]. split; [lia|discriminate].
Qed.

Lemma map_poisson_draw_run (lams : list Q) (w : world) :
  exists noise c,
    map_M np.poisson_draw lams w = (Ok noise, with_cursor w c) /\
    length noise = length lams /\
    Forall (fun n => 0 <= n) noise /\
    (forallb (fun l => Qeq_bool l 0) lams = true ->
     noise = replicate (length lams) 0 /\ c = cursor (rng w)).
Proof.
  revert w. induction lams as [|lam lams IH]; intros w.
  - exists [], (cursor (rng w)). simpl. rewrite with_cursor_id. auto.
  - destruct (poisson_draw_run lam w) as (n & c & Hn & Hpos & Hz).
    destruct (IH (with_cursor w c)) as (ns & c' & Hns & Hlen & Hall & Hzs).
    exists (n :: ns), c'. simpl map_M.
    rewrite (run_bind_Ok _ _ _ _ _ Hn), (run_bind_Ok _ _ _ _ _ Hns).
    split; [reflexivity|]. split; [simpl; congruence|].
    split; [constructor; assumption|].
    simpl. intros [H1 H2]%andb_true_iff.
    destruct (Hz H1) as [-> ->], (Hzs H2) as [-> Hc]. split; [reflexivity|].
    rewrite Hc. reflexivity.
Qed.

(** [np.random.poisson] either refuses a negative intensity, leaving the
    state as it is, or returns one non-negative draw per intensity and moves
    only the cursor of the generator. *)
Lemma random_poisson_run (lams : list Q) (w : world) :
  (existsb (fun l => Qlt_bool l 0) lams = true /\
   np.random_poisson lams w = (Raise (ValueError "lam < 0"), w)) \/
  (existsb (fun l => Qlt_bool l 0) lams = false /\
   exists noise c,
     np.random_poisson lams w = (Ok noise, with_cursor w c) /\
     length noise = length lams /\
     Forall (fun n => 0 <= n) noise /\
     (forallb (fun l => Qeq_bool l 0) lams = true ->
      noise = replicate (length lams) 0 /\ c = cursor (rng w))).
Proof.
  unfold np.random_poisson. destruct (existsb _ lams) eqn:E.
  - left. split; reflexivity.
  - right. split; [reflexivity|]. apply map_poisson_draw_run.
Qed.

(** ** Columns of a matrix given by its rows *)

Lemma length_write_column (j : nat) (rows : list (list Z)) (v : list Z) :
  length v = length rows -> length (write_column j rows v) = length rows.
Proof. intros H. unfold write_column. rewrite length_zip_with. lia. Qed.

Lemma width_write_column (j m : nat) (rows : list (list Z)) (v : list Z) :
  Forall (fun r => length r = m) rows ->
  Forall (fun r => length r = m) (write_column j rows v).
Proof.
  unfold write_column. intros H. revert v.
  induction H as [|r rows Hr _ IH]; intros [|x v]; simpl; constructor.
  - rewrite length_insert. exact Hr.
  - apply IH.
Qed.

Lemma lookup_write_column (j i : nat) (rows : list (list Z)) (v : list Z) :
  write_column j rows v !! i =
  rows !! i ≫= fun r => v !! i ≫= fun x => Some (<[j := x]> r).
Proof.
  unfold write_column. rewrite lookup_zip_with.
  destruct (rows !! i); simpl; [|reflexivity]. destruct (v !! i); reflexivity.
Qed.

Lemma entry_write_column_ne (j j' i : nat) (rows : list (list Z)) (v : list Z) :
  length v = length rows -> j <> j' ->
  entry (write_column j rows v) i j' = entry rows i j'.
Proof.
  intros Hlen Hne. unfold entry. rewrite lookup_write_column.
  destruct (rows !! i) as [r|] eqn:Hr; simpl; [|reflexivity].
  destruct (v !! i) as [x|] eqn:Hx; simpl.
  - apply list_lookup_insert_ne. exact Hne.
  - apply lookup_ge_None in Hx. apply lookup_lt_Some in Hr. lia.
Qed.



Lemma write_column_same (j : nat) (rows : list (list Z)) :
  write_column j rows (column j rows) = rows.
Proof.
  unfold write_column, column. induction rows as [|r rows IH]; simpl; [reflexivity|].
  f_equal; [|exact IH].
  destruct (r !! j) as [x|] eqn:Hx; simpl.
  - apply list_insert_id. exact Hx.
  - apply list_insert_ge. apply lookup_ge_None. exact Hx.
Qed.

(** ** One iteration of the loop *)

Lemma length_scaled_counts (k : Q) (col : list Z) :
  length (scaled_counts k col) = length col.
Proof. unfold scaled_counts, np.astype_int. simpl. rewrite !length_fmap. reflexivity. Qed.

Lemma length_intensities (nl k : Q) (col : list Z) :
  length (intensities nl k col) = length col.
Proof.
  unfold intensities, np.scalar_mul, np.maximum.
  rewrite !length_fmap. apply length_scaled_counts.
Qed.

Lemma length_new_counts (k : Q) (col noise : list Z) :
  length noise = length col -> length (new_counts k col noise) = length col.
Proof.
  intros H. unfold new_counts, np.clip_min, np.add.
  rewrite length_fmap, length_zip_with, length_scaled_counts. lia.
Qed.




Lemma column_tolist_run (w : world) (l : loc) (d : DataFrame) (key : string)
    (values : list string) :
  frames w !! l = Some d -> columns d !! key = Some values ->
  pd.column_tolist l key w = (Ok values, w).
Proof.
  intros Hd Hk. unfold pd.column_tolist, read_frame.
  rewrite run_bind, Hd, Hk. reflexivity.
Qed.

Lemma knock_factor_cases (knock_type : string) (fold_change : Q) :
  (knock_type = "knock-down" /\
   knock_factor knock_type fold_change = Some (1 - fold_change)%Q) \/
  (knock_type = "knock-up" /\
   knock_factor knock_type fold_change = Some (1 + fold_change)%Q) \/
  (knock_type <> "knock-down" /\ knock_type <> "knock-up" /\
   knock_factor knock_type fold_change = None).
Proof.
  unfold knock_factor.
  destruct (decide (knock_type = "knock-down")) as [->|H1]; [left; auto|].
  destruct (decide (knock_type = "knock-up")) as [->|H2]; [right; left; auto|].
  right; right; auto.
Qed.

Section loop.

Context (adata padata : AnnData) (gene_names knock_type : string).
Context (fold_change noise_level : Q) (names : list string) (n m : nat).

Abbreviation lX := (anndata.X padata).
Abbreviation body :=
  (perturb_gene adata padata (anndata.X padata) gene_names knock_type
     fold_change noise_level).

Lemma step_missing (w : world) (rows : list (list Z)) (gene : string) :
  loop_inv adata padata gene_names names n m w rows -> gene ∉ names ->
  body gene w =
  (Ok tt, World (arrays w) (frames w) (rng w) (stdout w ++ [missing_line gene])).
Proof.
  intros [(v & Hv & Hk) _ _ _ _ _ _] Hg. unfold perturb_gene.
  rewrite (run_bind_Ok _ _ _ _ _ (column_tolist_run _ _ _ _ _ Hv Hk)).
  rewrite bool_decide_eq_true_2 by exact Hg. reflexivity.
Qed.

(** The part of an iteration before the branch on [knock_type]. *)
Lemma step_prefix (w : world) (rows : list (list Z)) (gene : string) (j : nat) :
  loop_inv adata padata gene_names names n m w rows -> list_find (fun y => y = gene) names = Some (j, gene) ->
  body gene w =
  ((if decide (knock_type = "knock-down") then
      mret (scaled_counts (1 - fold_change) (column j rows))
    else if decide (knock_type = "knock-up") then
      mret (scaled_counts (1 + fold_change) (column j rows))
    else raise ERR_KNOCK_TYPE) ≫= fun perturbed_counts =>
   np.random_poisson
     (np.scalar_mul noise_level (np.maximum perturbed_counts 1)) ≫= fun noise =>
   np.setitem_column lX j (np.clip_min (np.add perturbed_counts noise) 0)) w.
Proof.
  intros [(v & Hv & Hk) (v' & Hv' & Hk' & _) _ HX Hrows Hwidth Hnames] Hfind.
  assert (Hj : (j < m)%nat).
  { apply list_find_Some in Hfind as (Hj & _). apply lookup_lt_Some in Hj. lia. }
  assert (Hin : gene ∈ names).
  { apply list_find_Some in Hfind as (Hj' & _). apply list_elem_of_lookup. eauto. }
  unfold perturb_gene.
  rewrite (run_bind_Ok _ _ _ _ _ (column_tolist_run _ _ _ _ _ Hv Hk)).
  rewrite bool_decide_eq_false_2 by (intros H; apply H, Hin).
  rewrite (run_bind_Ok _ _ _ _ _ (column_tolist_run _ _ _ _ _ Hv' Hk')).
  assert (Hidx : list_index names gene w = (Ok j, w)).
  { unfold list_index. rewrite Hfind. reflexivity. }
  rewrite (run_bind_Ok _ _ _ _ _ Hidx).
  assert (Hcol : np.getitem_column lX j w = (Ok (IntVec (column j rows)), w)).
  { unfold np.getitem_column, read_array. rewrite run_bind, HX.
    unfold lift_result, np.get_column. simpl.
    destruct (decide (j < m)%nat); [reflexivity|contradiction]. }
  rewrite (run_bind_Ok _ _ _ _ _ Hcol). reflexivity.
Qed.

Lemma step_bad_kind (w : world) (rows : list (list Z)) (gene : string) :
  loop_inv adata padata gene_names names n m w rows -> gene ∈ names ->
  knock_type <> "knock-down" -> knock_type <> "knock-up" ->
  body gene w = (Raise ERR_KNOCK_TYPE, w).
Proof.
  intros Hinv Hin H1 H2.
  destruct (list_find (fun y => y = gene) names) as [[j g]|] eqn:Hfind.
  - assert (g = gene) as -> by (apply list_find_Some in Hfind; tauto).
    rewrite (step_prefix w rows gene j Hinv Hfind).
    destruct (decide (knock_type = "knock-down")); [contradiction|].
    destruct (decide (knock_type = "knock-up")); [contradiction|].
    reflexivity.
  - apply list_find_None in Hfind. rewrite Forall_forall in Hfind.
    exfalso. exact (Hfind gene Hin eq_refl).
Qed.

Lemma setitem_column_run (w : world) (rows : list (list Z)) (j : nat)
    (v : list Z) :
  arrays w !! lX = Some (NDArray n m (Ints rows)) -> (j < m)%nat ->
  length v = n ->
  np.setitem_column lX j v w = (Ok tt, put_rows w lX n m (write_column j rows v)).
Proof.
  intros HX Hj Hv. unfold np.setitem_column, read_array.
  rewrite run_bind, HX. unfold lift_result, np.set_column. simpl.
  destruct (decide (j < m)%nat); [|contradiction].
  destruct (decide (length v = n)); [|contradiction]. reflexivity.
Qed.

(** An iteration for a gene of the index at position [j], with a recognised
    [knock_type]: either an intensity is negative and the draw raises, or the
    column [j] is rewritten from its present values and the draws. *)
Lemma step_found (w : world) (rows : list (list Z)) (gene : string) (j : nat)
    (k : Q) :
  loop_inv adata padata gene_names names n m w rows -> list_find (fun y => y = gene) names = Some (j, gene) ->
  knock_factor knock_type fold_change = Some k ->
  (np.random_poisson (intensities noise_level k (column j rows)) w =
     (Raise (ValueError "lam < 0"), w) /\
   body gene w = (Raise (ValueError "lam < 0"), w)) \/
  (exists noise c,
     np.random_poisson (intensities noise_level k (column j rows)) w =
       (Ok noise, with_cursor w c) /\
     length noise = n /\
     (forallb (fun l => Qeq_bool l 0)
        (intensities noise_level k (column j rows)) = true ->
      noise = replicate n 0 /\ c = cursor (rng w)) /\
     body gene w =
       (Ok tt,
        put_rows (with_cursor w c) lX n m
          (write_column j rows (new_counts k (column j rows) noise)))).
Proof.
  intros Hinv Hfind Hk.
  rewrite (step_prefix w rows gene j Hinv Hfind).
  assert (Hj : (j < m)%nat).
  { apply list_find_Some in Hfind as (Hj & _). apply lookup_lt_Some in Hj.
    rewrite (inv_names _ _ _ _ _ _ _ _ Hinv) in Hj. exact Hj. }
  assert (Hcol : length (column j rows) = n).
  { unfold column. rewrite length_fmap. apply (inv_rows _ _ _ _ _ _ _ _ Hinv). }
  assert (Hbranch :
    (if decide (knock_type = "knock-down") then
       mret (scaled_counts (1 - fold_change) (column j rows))
     else if decide (knock_type = "knock-up") then
       mret (scaled_counts (1 + fold_change) (column j rows))
     else raise ERR_KNOCK_TYPE) w = (Ok (scaled_counts k (column j rows)), w)).
  { unfold knock_factor in Hk.
    destruct (decide (knock_type = "knock-down"));
      [injection Hk as <-; reflexivity|].
    destruct (decide (knock_type = "knock-up"));
      [injection Hk as <-; reflexivity|discriminate]. }
  rewrite (run_bind_Ok _ _ _ _ _ Hbranch).
  fold (intensities noise_level k (column j rows)).
  destruct (random_poisson_run (intensities noise_level k (column j rows)) w)
    as [[_ Hr]|[_ (noise & c & Hr & Hlen & _ & Hz)]].
  - left. split; [exact Hr|]. rewrite (run_bind_Raise _ _ _ _ _ Hr). reflexivity.
  - right. exists noise, c. rewrite length_intensities, Hcol in Hlen, Hz.
    split; [exact Hr|]. split; [exact Hlen|]. split; [exact Hz|].
    rewrite (run_bind_Ok _ _ _ _ _ Hr).
    apply setitem_column_run; [apply (inv_X _ _ _ _ _ _ _ _ Hinv)|exact Hj|].
    fold (new_counts k (column j rows) noise).
    rewrite length_new_counts; [exact Hcol|]. rewrite Hcol. exact Hlen.
Qed.

Lemma loop_inv_put_rows (w : world) (rows rows' : list (list Z)) (c : nat) :
  loop_inv adata padata gene_names names n m w rows -> length rows' = n ->
  Forall (fun r => length r = m) rows' ->
  loop_inv adata padata gene_names names n m (put_rows (with_cursor w c) lX n m rows') rows'.
Proof.
  intros [Hv Hv' Ho _ _ _ Hnames] Hlen Hwidth.
  split; simpl; auto. apply lookup_insert_eq.
Qed.

Lemma loop_inv_print (w : world) (rows : list (list Z)) (line : string) :
  loop_inv adata padata gene_names names n m w rows ->
  loop_inv adata padata gene_names names n m (World (arrays w) (frames w) (rng w) (stdout w ++ [line])) rows.
Proof. intros [Hv Hv' Ho HX Hrows Hwidth Hnames]. split; simpl; auto. Qed.

(** A property [P] of the rows that every rewriting of a column of a target
    gene preserves holds after the loop, however the loop ends; the loop
    touches no frame and no array but the one of the copy. *)
Lemma loop_preserves (P : list (list Z) -> Prop) (targets : list string) :
  (forall rows gene j k noise,
     P rows -> gene ∈ targets ->
     list_find (fun y => y = gene) names = Some (j, gene) ->
     knock_factor knock_type fold_change = Some k ->
     length rows = n -> length noise = n ->
     (forallb (fun l => Qeq_bool l 0)
        (intensities noise_level k (column j rows)) = true ->
      noise = replicate n 0) ->
     P (write_column j rows (new_counts k (column j rows) noise))) ->
  forall w rows r w',
    loop_inv adata padata gene_names names n m w rows -> P rows -> for_each targets body w = (r, w') ->
    exists rows',
      loop_inv adata padata gene_names names n m w' rows' /\ P rows' /\ frames w' = frames w /\
      (forall l, l <> lX -> arrays w' !! l = arrays w !! l).
Proof.
  induction targets as [|gene targets IH]; intros HP w rows r w' Hinv Hrows Hrun.
  { simpl in Hrun. injection Hrun as _ <-. exists rows. auto. }
  simpl in Hrun. rewrite run_bind in Hrun.
  assert (IH' : forall w1 rows1 r1 w1',
    loop_inv adata padata gene_names names n m w1 rows1 -> P rows1 -> for_each targets body w1 = (r1, w1') ->
    exists rows', loop_inv adata padata gene_names names n m w1' rows' /\ P rows' /\ frames w1' = frames w1 /\
      (forall l, l <> lX -> arrays w1' !! l = arrays w1 !! l)).
  { apply IH. intros rows1 g j k noise H1 H2. apply HP; [exact H1|].
    apply elem_of_cons. right. exact H2. }
  clear IH.
  destruct (decide (gene ∈ names)) as [Hin|Hout].
  2:{ rewrite (step_missing w rows gene Hinv Hout) in Hrun.
      destruct (IH' _ _ _ _ (loop_inv_print w rows _ Hinv) Hrows Hrun)
        as (rows' & Hinv' & HP' & Hfr & Har).
      exists rows'. auto. }
  destruct (list_find (fun y => y = gene) names) as [[j g]|] eqn:Hfind.
  2:{ apply list_find_None in Hfind. rewrite Forall_forall in Hfind.
      exfalso. exact (Hfind gene Hin eq_refl). }
  assert (g = gene) as -> by (apply list_find_Some in Hfind; tauto).
  destruct (knock_factor knock_type fold_change) as [k|] eqn:Hk.
  2:{ destruct (knock_factor_cases knock_type fold_change)
        as [[_ Hk']|[[_ Hk']|(H1 & H2 & _)]]; try congruence.
      rewrite (step_bad_kind w rows gene Hinv Hin H1 H2) in Hrun.
      injection Hrun as _ <-. exists rows. auto. }
  destruct (step_found w rows gene j k Hinv Hfind Hk)
    as [[_ Hb]|(noise & c & _ & Hlen & Hz & Hb)]; rewrite Hb in Hrun.
  { injection Hrun as _ <-. exists rows. auto. }
  pose proof (inv_rows _ _ _ _ _ _ _ _ Hinv) as Hn.
  set (rows1 := write_column j rows (new_counts k (column j rows) noise)) in *.
  assert (Hlen1 : length rows1 = n).
  { unfold rows1. rewrite length_write_column; [exact Hn|].
    rewrite length_new_counts; unfold column; rewrite length_fmap; congruence. }
  assert (Hw1 : Forall (fun r => length r = m) rows1).
  { apply width_write_column, (inv_width _ _ _ _ _ _ _ _ Hinv). }
  assert (HP1 : P rows1).
  { apply (HP rows gene j k noise); auto.
    - apply elem_of_cons; auto.
    - intros H. apply Hz, H. }
  destruct (IH' _ _ _ _ (loop_inv_put_rows w rows rows1 c Hinv Hlen1 Hw1) HP1 Hrun)
    as (rows' & Hinv' & HP' & Hfr & Har).
  exists rows'. split; [exact Hinv'|]. split; [exact HP'|]. split; [exact Hfr|].
  intros l Hl. rewrite (Har l Hl). simpl. apply lookup_insert_ne. auto.
Qed.

End loop.

(** ** The copy and the call as a whole *)

Lemma read_array_run (w : world) (l : loc) (a : ndarray) :
  arrays w !! l = Some a -> read_array l w = (Ok a, w).
Proof. intros H. unfold read_array. rewrite H. reflexivity. Qed.

Lemma read_frame_run (w : world) (l : loc) (d : DataFrame) :
  frames w !! l = Some d -> read_frame l w = (Ok d, w).
Proof. intros H. unfold read_frame. rewrite H. reflexivity. Qed.

Lemma copy_run (w : world) (adata : AnnData) (a : ndarray) (o v : DataFrame) :
  object_at w adata a o v ->
  anndata.copy adata w = (Ok (copy_of w o), after_copy w a o v).
Proof.
  intros (HX & Ho & Hv). unfold anndata.copy.
  rewrite (run_bind_Ok _ _ _ _ _ (read_array_run _ _ _ HX)).
  rewrite (run_bind_Ok _ _ _ _ _ (read_frame_run _ _ _ Ho)).
  rewrite (run_bind_Ok _ _ _ _ _ (read_frame_run _ _ _ Hv)).
  reflexivity.
Qed.

Lemma fresh_array_ne (w : world) (l : loc) (a : ndarray) :
  arrays w !! l = Some a -> fresh (dom (arrays w)) <> l.
Proof.
  intros H E. apply (is_fresh (dom (arrays w))). rewrite E.
  apply elem_of_dom. eauto.
Qed.

Lemma after_copy_frames (w : world) (a : ndarray) (o v d : DataFrame) (l : loc) :
  frames w !! l = Some d -> frames (after_copy w a o v) !! l = Some d.
Proof.
  intros H. unfold after_copy. simpl.
  assert (H1 : fresh (dom (frames w)) <> l).
  { intros E. apply (is_fresh (dom (frames w))). rewrite E.
    apply elem_of_dom. eauto. }
  assert (H2 : fresh (dom (<[fresh (dom (frames w)) := o]> (frames w))) <> l).
  { intros E.
    apply (is_fresh (dom (<[fresh (dom (frames w)) := o]> (frames w)))).
    rewrite E. apply elem_of_dom. rewrite lookup_insert_ne by exact H1. eauto. }
  rewrite lookup_insert_ne by exact H2. rewrite lookup_insert_ne by exact H1.
  exact H.
Qed.

Lemma after_copy_inv (w : world) (adata : AnnData) (gene_names : string)
    (a : ndarray) (o v : DataFrame) (rows : list (list Z))
    (names : list string) :
  object_at w adata a o v -> well_shaped a o v -> data a = Ints rows ->
  columns v !! gene_names = Some names ->
  loop_inv adata (copy_of w o) gene_names names (n_rows a) (n_cols a)
    (after_copy w a o v) rows.
Proof.
  intros (HX & Ho & Hv) (Hshape & Hobs & Hvar & Hcols) Hdata Hnames.
  rewrite Hdata in Hshape. destruct Hshape as [Hlen Hwidth].
  split.
  - exists v. split; [|exact Hnames]. apply after_copy_frames. exact Hv.
  - exists v. split; [|auto]. unfold after_copy. simpl. apply lookup_insert_eq.
  - exists o. split; [|auto]. unfold after_copy. simpl.
    rewrite lookup_insert_ne; [apply lookup_insert_eq|].
    intros E. apply (is_fresh (dom (<[fresh (dom (frames w)) := o]> (frames w)))).
    rewrite E. apply elem_of_dom. rewrite lookup_insert_eq. eauto.
  - unfold after_copy. simpl. rewrite lookup_insert_eq.
    destruct a as [n m d]. simpl in *. rewrite Hdata. reflexivity.
  - exact Hlen.
  - exact Hwidth.
  - apply (Hcols gene_names names Hnames).
Qed.

Lemma set_X_run (adata p : AnnData) (gene_names : string) (names : list string)
    (n m : nat) (w : world) (rows : list (list Z)) :
  loop_inv adata p gene_names names n m w rows ->
  anndata.set_X p (anndata.X p) w = (Ok p, w).
Proof.
  intros [_ (v & Hv & _ & Hvl) (o & Ho & Hol) HX _ _ _].
  assert (Hn : anndata.n_obs p w = (Ok n, w)).
  { unfold anndata.n_obs.
    rewrite (run_bind_Ok _ _ _ _ _ (read_frame_run _ _ _ Ho)), Hol. reflexivity. }
  assert (Hm : anndata.n_vars p w = (Ok m, w)).
  { unfold anndata.n_vars.
    rewrite (run_bind_Ok _ _ _ _ _ (read_frame_run _ _ _ Hv)), Hvl. reflexivity. }
  unfold anndata.set_X.
  rewrite (run_bind_Ok _ _ _ _ _ (read_array_run _ _ _ HX)).
  rewrite (run_bind_Ok _ _ _ _ _ Hn), (run_bind_Ok _ _ _ _ _ Hm). simpl.
  destruct (decide (n = n /\ m = m)) as [_|H].
  - destruct p. reflexivity.
  - exfalso. apply H. auto.
Qed.

(** The call as a whole on integer count data: the copy, then the loop in
    the state the copy leaves, then the object of the copy. *)
Lemma perturb_genes_counts_run (adata : AnnData) (gene_names : string)
    (targets : list string) (knock_type : string) (fold_change noise_level : Q)
    (w : world) (a : ndarray) (o v : DataFrame) (rows : list (list Z))
    (names : list string) :
  object_at w adata a o v -> well_shaped a o v -> data a = Ints rows ->
  columns v !! gene_names = Some names ->
  perturb_genes_counts adata gene_names targets knock_type fold_change
    noise_level w =
  match for_each targets
          (perturb_gene adata (copy_of w o) (anndata.X (copy_of w o))
             gene_names knock_type fold_change noise_level)
          (after_copy w a o v) with
  | (Ok _, w2) => (Ok (copy_of w o), w2)
  | (Raise e, w2) => (Raise e, w2)
  end.
Proof.
  intros Hobj Hshape Hdata Hnames.
  pose proof (after_copy_inv w adata gene_names a o v rows names
                Hobj Hshape Hdata Hnames) as Hinv.
  unfold perturb_genes_counts.
  rewrite (run_bind_Ok _ _ _ _ _ (copy_run w adata a o v Hobj)).
  rewrite (run_bind_Ok _ _ _ _ _
             (read_array_run _ _ _ (inv_X _ _ _ _ _ _ _ _ Hinv))).
  unfold np.issubdtype_integer. simpl. rewrite run_bind.
  destruct (for_each targets _ (after_copy w a o v)) as [[[]|e] w2] eqn:Hrun;
    [|reflexivity].
  destruct (loop_preserves adata (copy_of w o) gene_names knock_type fold_change
              noise_level names (n_rows a) (n_cols a) (fun _ => True) targets
              ltac:(auto) _ _ _ _ Hinv I Hrun) as (rows' & Hinv' & _).
  apply (set_X_run _ _ _ _ _ _ _ _ Hinv').
Qed.

(** ** Arithmetic of an identity perturbation *)

Lemma Qtrunc_inject_Z (q : Q) (c : Z) : (q == inject_Z c)%Q -> Qtrunc q = c.
Proof.
  unfold Qeq, Qtrunc. simpl. intros H.
  replace (Qnum q) with (c * Z.pos (Qden q)) by lia.
  apply Z.quot_mul. discriminate.
Qed.

Lemma Qtrunc_fold_change_0 (fold_change : Q) (c : Z) :
  (fold_change == 0)%Q -> Qtrunc (inject_Z c * (1 - fold_change)) = c.
Proof.
  intros H. apply Qtrunc_inject_Z. rewrite H. ring.
Qed.

Lemma scaled_counts_fold_change_0 (fold_change : Q) (col : list Z) :
  (fold_change == 0)%Q -> scaled_counts (1 - fold_change) col = col.
Proof.
  intros H. unfold scaled_counts, np.astype_int, np.mul_scalar.
  rewrite <- list_fmap_compose. rewrite <- (list_fmap_id col) at 2.
  apply list_fmap_ext. intros i c _. simpl. apply Qtrunc_fold_change_0, H.
Qed.

Lemma intensities_noise_level_0 (noise_level k : Q) (col : list Z) :
  (noise_level == 0)%Q ->
  forallb (fun l => Qeq_bool l 0) (intensities noise_level k col) = true.
Proof.
  intros H. unfold intensities, np.scalar_mul.
  induction (np.maximum (scaled_counts k col) 1) as [|c l IH]; simpl;
    [reflexivity|].
  apply andb_true_iff. split; [|exact IH].
  apply Qeq_bool_iff. rewrite H. ring.
Qed.

Lemma no_negative_of_all_zero (lams : list Q) :
  forallb (fun l => Qeq_bool l 0) lams = true ->
  existsb (fun l => Qlt_bool l 0) lams = false.
Proof.
  induction lams as [|l lams IH]; simpl; [reflexivity|].
  intros [H1 H2]%andb_true_iff. rewrite (IH H2), orb_false_r.
  unfold Qlt_bool. apply negb_false_iff, Qle_bool_iff.
  apply Qeq_bool_iff in H1. rewrite H1. apply Qle_refl.
Qed.

Lemma clip_add_zero (col : list Z) (n : nat) :
  Forall (fun c => 0 <= c) col -> length col = n ->
  np.clip_min (np.add col (replicate n 0)) 0 = col.
Proof.
  unfold np.clip_min, np.add. intros H. revert n.
  induction H as [|c col Hc _ IH]; intros [|n] Hn; simpl in *; try lia;
    [reflexivity|].
  f_equal; [lia|]. apply IH. lia.
Qed.

Lemma column_nonneg (j : nat) (rows : list (list Z)) :
  Forall (Forall (fun c => 0 <= c)) rows ->
  Forall (fun c => 0 <= c) (column j rows).
Proof.
  intros H. unfold column. apply Forall_fmap.
  eapply Forall_impl; [exact H|]. intros r Hr. simpl.
  destruct (r !! j) as [c|] eqn:Hc; simpl; [|lia].
  rewrite Forall_forall in Hr. apply Hr, list_elem_of_lookup. eauto.
Qed.


Lemma put_rows_same (w : world) (l : loc) (n m : nat) (rows : list (list Z)) :
  arrays w !! l = Some (NDArray n m (Ints rows)) ->
  put_rows (with_cursor w (cursor (rng w))) l n m rows = w.
Proof.
  intros H. rewrite with_cursor_id. unfold put_rows.
  rewrite (insert_id _ _ _ H). destruct w. reflexivity.
Qed.

Lemma random_poisson_zero (lams : list Q) (w : world) :
  forallb (fun l => Qeq_bool l 0) lams = true ->
  np.random_poisson lams w = (Ok (replicate (length lams) 0), w).
Proof.
  intros H. unfold np.random_poisson. rewrite (no_negative_of_all_zero lams H).
  destruct (map_poisson_draw_run lams w) as (noise & c & Hrun & _ & _ & Hz).
  destruct (Hz H) as [-> ->]. rewrite Hrun, with_cursor_id. reflexivity.
Qed.

(** ** The loop as a whole *)

(** When each target that resolves leaves its column as it is (knock-down
    by a zero fold change, no noise, no negative count in the column), the
    loop only prints, one line per missing name. *)
Lemma loop_identity (adata p : AnnData) (gene_names knock_type : string)
    (fold_change noise_level : Q) (names : list string) (n m : nat)
    (rows : list (list Z)) (targets : list string) :
  (forall g, g ∈ targets -> g ∈ names ->
     knock_type = "knock-down" /\ (fold_change == 0)%Q /\
     (noise_level == 0)%Q /\
     forall j, names !! j = Some g -> Forall (fun c => 0 <= c) (column j rows)) ->
  forall w, loop_inv adata p gene_names names n m w rows ->
  for_each targets
    (perturb_gene adata p (anndata.X p) gene_names knock_type fold_change
       noise_level) w =
  (Ok tt,
   World (arrays w) (frames w) (rng w)
     (stdout w ++ (missing_line <$> filter (fun g => g ∉ names) targets))).
Proof.
  induction targets as [|gene targets IH]; intros Hres w Hinv.
  { simpl. rewrite app_nil_r. destruct w. reflexivity. }
  assert (Hres' : forall g, g ∈ targets -> g ∈ names ->
     knock_type = "knock-down" /\ (fold_change == 0)%Q /\
     (noise_level == 0)%Q /\
     forall j, names !! j = Some g -> Forall (fun c => 0 <= c) (column j rows)).
  { intros g Hg. apply Hres, elem_of_cons. auto. }
  simpl for_each. rewrite run_bind.
  destruct (decide (gene ∈ names)) as [Hin|Hout].
  - destruct (Hres gene ltac:(apply elem_of_cons; auto) Hin)
      as (-> & Hfc & Hnl & Hpos).
    destruct (list_find (fun y => y = gene) names) as [[j g]|] eqn:Hfind.
    2:{ apply list_find_None in Hfind. rewrite Forall_forall in Hfind.
        exfalso. exact (Hfind gene Hin eq_refl). }
    assert (g = gene) as -> by (apply list_find_Some in Hfind; tauto).
    pose proof (intensities_noise_level_0 noise_level (1 - fold_change)
                  (column j rows) Hnl) as Hzero.
    destruct (step_found adata p gene_names "knock-down" fold_change noise_level
                names n m w rows gene j (1 - fold_change)%Q Hinv Hfind eq_refl)
      as [[Hr _]|(noise & c & _ & Hlen & Hz & Hb)].
    { rewrite (random_poisson_zero _ w Hzero) in Hr. discriminate. }
    destruct (Hz Hzero) as [-> ->]. rewrite Hb.
    unfold new_counts. rewrite (scaled_counts_fold_change_0 _ _ Hfc).
    rewrite clip_add_zero.
    + rewrite write_column_same, (put_rows_same _ _ _ _ _ (inv_X _ _ _ _ _ _ _ _ Hinv)).
      rewrite (IH Hres' w Hinv), filter_cons_False; [reflexivity|].
      intros H. exact (H Hin).
    + apply Hpos. apply list_find_Some in Hfind. tauto.
    + unfold column. rewrite length_fmap. apply (inv_rows _ _ _ _ _ _ _ _ Hinv).
  - rewrite (step_missing adata p gene_names knock_type fold_change noise_level
               names n m w rows gene Hinv Hout).
    rewrite (IH Hres' _ (loop_inv_print _ _ _ _ _ _ w rows _ Hinv)). simpl.
    rewrite filter_cons_True by exact Hout. simpl.
    rewrite <- app_assoc. reflexivity.
Qed.

(** With an unknown [knock_type], the loop raises at the first target that
    resolves; until then it has only printed. *)
Lemma loop_bad_kind (adata p : AnnData) (gene_names knock_type : string)
    (fold_change noise_level : Q) (names : list string) (n m : nat)
    (rows : list (list Z)) (targets : list string) :
  knock_type <> "knock-down" -> knock_type <> "knock-up" ->
  (exists g, g ∈ targets /\ g ∈ names) ->
  forall w, loop_inv adata p gene_names names n m w rows ->
  exists out,
    for_each targets
      (perturb_gene adata p (anndata.X p) gene_names knock_type fold_change
         noise_level) w =
    (Raise ERR_KNOCK_TYPE, World (arrays w) (frames w) (rng w) out).
Proof.
  intros H1 H2. induction targets as [|gene targets IH]; intros (g & Hg & Hin) w Hinv.
  { inversion Hg. }
  simpl for_each. rewrite run_bind.
  destruct (decide (gene ∈ names)) as [Hin'|Hout].
  - rewrite (step_bad_kind adata p gene_names knock_type fold_change noise_level
               names n m w rows gene Hinv Hin' H1 H2).
    exists (stdout w). destruct w. reflexivity.
  - rewrite (step_missing adata p gene_names knock_type fold_change noise_level
               names n m w rows gene Hinv Hout).
    apply elem_of_cons in Hg as [->|Hg]; [contradiction|].
    destruct (IH (ex_intro _ g (conj Hg Hin)) _
                (loop_inv_print _ _ _ _ _ _ w rows (missing_line gene) Hinv))
      as (out & Hrun).
    exists out. exact Hrun.
Qed.

(** A property of the rows that every rewriting of a target column preserves
    holds of the matrix a successful call returns. *)
Lemma call_preserves (P : list (list Z) -> Prop) (adata : AnnData)
    (gene_names : string) (targets : list string) (knock_type : string)
    (fold_change noise_level : Q) (w : world) (a : ndarray) (o v : DataFrame)
    (rows : list (list Z)) (names : list string) (out : AnnData) (w' : world) :
  object_at w adata a o v -> well_shaped a o v -> data a = Ints rows ->
  columns v !! gene_names = Some names ->
  (forall rows1 gene j k noise,
     P rows1 -> gene ∈ targets ->
     list_find (fun y => y = gene) names = Some (j, gene) ->
     knock_factor knock_type fold_change = Some k ->
     length rows1 = n_rows a -> length noise = n_rows a ->
     (forallb (fun l => Qeq_bool l 0)
        (intensities noise_level k (column j rows1)) = true ->
      noise = replicate (n_rows a) 0) ->
     P (write_column j rows1 (new_counts k (column j rows1) noise))) ->
  P rows ->
  perturb_genes_counts adata gene_names targets knock_type fold_change
    noise_level w = (Ok out, w') ->
  out = copy_of w o /\
  exists rows',
    arrays w' !! anndata.X out = Some (NDArray (n_rows a) (n_cols a) (Ints rows')) /\
    P rows'.
Proof.
  intros Hobj Hshape Hdata Hnames HP Hrows Hrun.
  rewrite (perturb_genes_counts_run adata gene_names targets knock_type
             fold_change noise_level w a o v rows names Hobj Hshape Hdata Hnames)
    in Hrun.
  destruct (for_each targets _ (after_copy w a o v)) as [[[]|e] w2] eqn:Hloop;
    [|discriminate].
  injection Hrun as <- <-. split; [reflexivity|].
  destruct (loop_preserves adata (copy_of w o) gene_names knock_type fold_change
              noise_level names (n_rows a) (n_cols a) P targets HP _ _ _ _
              (after_copy_inv w adata gene_names a o v rows names
                 Hobj Hshape Hdata Hnames) Hrows Hloop)
    as (rows' & Hinv' & HP' & _).
  exists rows'. split; [apply (inv_X _ _ _ _ _ _ _ _ Hinv')|exact HP'].
Qed.

(** What a call returns when its loop only prints: the object of the copy,
    in the state of the copy with the lines added. *)
Lemma call_identity (adata : AnnData) (gene_names : string)
    (targets : list string) (knock_type : string) (fold_change noise_level : Q)
    (w : world) (a : ndarray) (o v : DataFrame) (rows : list (list Z))
    (names : list string) :
  object_at w adata a o v -> well_shaped a o v -> data a = Ints rows ->
  columns v !! gene_names = Some names ->
  (forall g, g ∈ targets -> g ∈ names ->
     knock_type = "knock-down" /\ (fold_change == 0)%Q /\
     (noise_level == 0)%Q /\
     forall j, names !! j = Some g -> Forall (fun c => 0 <= c) (column j rows)) ->
  perturb_genes_counts adata gene_names targets knock_type fold_change
    noise_level w =
  (Ok (copy_of w o),
   World (arrays (after_copy w a o v)) (frames (after_copy w a o v)) (rng w)
     (stdout w ++ (missing_line <$> filter (fun g => g ∉ names) targets))).
Proof.
  intros Hobj Hshape Hdata Hnames Hres.
  rewrite (perturb_genes_counts_run adata gene_names targets knock_type
             fold_change noise_level w a o v rows names Hobj Hshape Hdata Hnames).
  rewrite (loop_identity adata (copy_of w o) gene_names knock_type fold_change
             noise_level names (n_rows a) (n_cols a) rows targets Hres _
             (after_copy_inv w adata gene_names a o v rows names
                Hobj Hshape Hdata Hnames)).
  reflexivity.
Qed.


Lemma after_copy_arrays (w : world) (a x : ndarray) (o v : DataFrame) (l : loc) :
  arrays w !! l = Some x -> arrays (after_copy w a o v) !! l = Some x.
Proof.
  intros H. unfold after_copy. simpl. rewrite lookup_insert_ne; [exact H|].
  apply (fresh_array_ne w l x H).
Qed.

Lemma after_copy_X (w : world) (a : ndarray) (o v : DataFrame) :
  arrays (after_copy w a o v) !! anndata.X (copy_of w o) = Some a.
Proof. unfold after_copy. simpl. apply lookup_insert_eq. Qed.

Lemma filter_all_missing (names targets : list string) :
  Forall (fun g => g ∉ names) targets ->
  filter (fun g => g ∉ names) targets = targets.
Proof.
  induction 1 as [|g targets Hg _ IH]; [reflexivity|].
  rewrite filter_cons_True by exact Hg. rewrite IH. reflexivity.
Qed.


(** ** What a call can write *)

Lemma only_writes_bind (l : loc) {A B} (m : M A) (f : A -> M B) :
  only_writes l m -> (forall a, only_writes l (f a)) ->
  only_writes l (m ≫= f).
Proof.
  intros Hm Hf w r w' Hrun. rewrite run_bind in Hrun.
  destruct (m w) as [[a|e] w1] eqn:Hmw.
  - destruct (Hm _ _ _ Hmw) as [Hfr Har], (Hf a _ _ _ Hrun) as [Hfr' Har'].
    split; [congruence|]. intros l' Hl'. rewrite (Har' l' Hl'). apply Har, Hl'.
  - injection Hrun as <- <-. apply (Hm _ _ _ Hmw).
Qed.

Lemma only_writes_same (l : loc) {A} (m : M A) :
  (forall w, arrays (snd (m w)) = arrays w /\ frames (snd (m w)) = frames w) ->
  only_writes l m.
Proof.
  intros H w r w' Hrun. destruct (H w) as [Ha Hf]. rewrite Hrun in Ha, Hf.
  simpl in Ha, Hf. split; [exact Hf|]. intros l' _. rewrite Ha. reflexivity.
Qed.

Lemma only_writes_ret (l : loc) {A} (a : A) : only_writes l (mret a).
Proof. apply only_writes_same. intros w. split; reflexivity. Qed.

Lemma only_writes_raise (l : loc) {A} (e : exn) : only_writes l (@raise A e).
Proof. apply only_writes_same. intros w. split; reflexivity. Qed.

Lemma only_writes_lift (l : loc) {A} (r : result A) : only_writes l (lift_result r).
Proof. apply only_writes_same. intros w. split; reflexivity. Qed.

Lemma only_writes_print (l : loc) (line : string) : only_writes l (print line).
Proof. apply only_writes_same. intros w. split; reflexivity. Qed.

Lemma only_writes_read_array (l l0 : loc) : only_writes l (read_array l0).
Proof.
  apply only_writes_same. intros w. unfold read_array.
  destruct (arrays w !! l0); split; reflexivity.
Qed.

Lemma only_writes_read_frame (l l0 : loc) : only_writes l (read_frame l0).
Proof.
  apply only_writes_same. intros w. unfold read_frame.
  destruct (frames w !! l0); split; reflexivity.
Qed.

Lemma only_writes_write_array (l : loc) (a : ndarray) :
  only_writes l (write_array l a).
Proof.
  intros w r w' Hrun. unfold write_array in Hrun. injection Hrun as _ <-.
  split; [reflexivity|]. intros l' Hl'. simpl. apply lookup_insert_ne. auto.
Qed.

Lemma only_writes_random_poisson (l : loc) (lams : list Q) :
  only_writes l (np.random_poisson lams).
Proof.
  intros w r w' Hrun.
  destruct (random_poisson_run lams w)
    as [[_ H]|[_ (noise & c & H & _)]]; rewrite H in Hrun;
    injection Hrun as _ <-; split; reflexivity || (intros; reflexivity).
Qed.

Lemma only_writes_column_tolist (l l0 : loc) (key : string) :
  only_writes l (pd.column_tolist l0 key).
Proof.
  apply only_writes_bind; [apply only_writes_read_frame|].
  intros d. destruct (columns d !! key);
    [apply only_writes_ret|apply only_writes_raise].
Qed.

Lemma only_writes_for_each (l : loc) {A} (xs : list A) (body : A -> M unit) :
  (forall x, only_writes l (body x)) -> only_writes l (for_each xs body).
Proof.
  intros H. induction xs as [|x xs IH]; simpl.
  - apply only_writes_ret.
  - apply only_writes_bind; [apply H|]. intros _. exact IH.
Qed.

Lemma only_writes_perturb_gene (adata p : AnnData) (X : loc)
    (gene_names knock_type : string) (fold_change noise_level : Q)
    (gene : string) :
  only_writes X
    (perturb_gene adata p X gene_names knock_type fold_change noise_level gene).
Proof.
  unfold perturb_gene.
  apply only_writes_bind; [apply only_writes_column_tolist|]. intros names.
  destruct (bool_decide (gene ∉ names)); [apply only_writes_print|].
  apply only_writes_bind; [apply only_writes_column_tolist|]. intros names'.
  apply only_writes_bind.
  { unfold list_index. destruct (list_find _ names') as [[i y]|];
      [apply only_writes_ret|apply only_writes_raise]. }
  intros gene_idx. apply only_writes_bind.
  { unfold np.getitem_column. apply only_writes_bind;
      [apply only_writes_read_array|]. intros a. apply only_writes_lift. }
  intros original_counts. apply only_writes_bind.
  { destruct (decide (knock_type = "knock-down")); [apply only_writes_ret|].
    destruct (decide (knock_type = "knock-up"));
      [apply only_writes_ret|apply only_writes_raise]. }
  intros perturbed_counts.
  apply only_writes_bind; [apply only_writes_random_poisson|]. intros noise.
  unfold np.setitem_column.
  apply only_writes_bind; [apply only_writes_read_array|]. intros a.
  apply only_writes_bind; [apply only_writes_lift|]. intros a'.
  apply only_writes_write_array.
Qed.

Lemma only_writes_set_X (l : loc) (p : AnnData) (x : loc) :
  only_writes l (anndata.set_X p x).
Proof.
  unfold anndata.set_X, anndata.n_obs, anndata.n_vars.
  apply only_writes_bind; [apply only_writes_read_array|]. intros a.
  apply only_writes_bind.
  { apply only_writes_bind; [apply only_writes_read_frame|].
    intros d. apply only_writes_ret. }
  intros n. apply only_writes_bind.
  { apply only_writes_bind; [apply only_writes_read_frame|].
    intros d. apply only_writes_ret. }
  intros m. destruct (decide _); [apply only_writes_ret|apply only_writes_raise].
Qed.

Lemma set_X_result (p : AnnData) (x : loc) (w w' : world) (out : AnnData) :
  anndata.set_X p x w = (Ok out, w') ->
  out = {| anndata.X := x; anndata.obs := anndata.obs p;
           anndata.var := anndata.var p |}.
Proof.
  unfold anndata.set_X, anndata.n_obs, anndata.n_vars, read_array, read_frame.
  rewrite !run_bind.
  destruct (arrays w !! x); [|discriminate]. rewrite !run_bind.
  destruct (frames w !! anndata.obs p); [|discriminate]. simpl.
  rewrite !run_bind.
  destruct (frames w !! anndata.var p); [|discriminate]. simpl.
  destruct (decide _); [|discriminate].
  intros H. injection H as <- _. reflexivity.
Qed.

(** The copy either finds no object and raises in the state it started in,
    or finds the three parts of the object. *)
Lemma copy_cases (adata : AnnData) (w : world) :
  anndata.copy adata w = (Raise InvalidReference, w) \/
  exists a o v, object_at w adata a o v.
Proof.
  unfold object_at.
  destruct (arrays w !! anndata.X adata) as [a|] eqn:HX.
  2:{ left. unfold anndata.copy.
      apply run_bind_Raise. unfold read_array. rewrite HX. reflexivity. }
  destruct (frames w !! anndata.obs adata) as [o|] eqn:Ho.
  2:{ left. unfold anndata.copy.
      rewrite (run_bind_Ok _ _ _ _ _ (read_array_run _ _ _ HX)).
      apply run_bind_Raise. unfold read_frame. rewrite Ho. reflexivity. }
  destruct (frames w !! anndata.var adata) as [v|] eqn:Hv.
  2:{ left. unfold anndata.copy.
      rewrite (run_bind_Ok _ _ _ _ _ (read_array_run _ _ _ HX)).
      rewrite (run_bind_Ok _ _ _ _ _ (read_frame_run _ _ _ Ho)).
      apply run_bind_Raise. unfold read_frame. rewrite Hv. reflexivity. }
  right. exists a, o, v. auto.
Qed.

Lemma copy_of_fresh (w : world) (o : DataFrame) :
  arrays w !! anndata.X (copy_of w o) = None /\
  frames w !! anndata.obs (copy_of w o) = None /\
  frames w !! anndata.var (copy_of w o) = None.
Proof.
  unfold copy_of. simpl. split; [|split].
  - apply not_elem_of_dom, is_fresh.
  - apply not_elem_of_dom, is_fresh.
  - apply not_elem_of_dom. intros H.
    apply (is_fresh (dom (<[fresh (dom (frames w)) := o]> (frames w)))).
    apply dom_insert_subseteq. exact H.
Qed.

(** Every call, however it ends, leaves each array and frame of the state it
    started in as it was, and an object it returns is the copy. *)
Lemma perturb_genes_counts_frame (adata : AnnData) (gene_names : string)
    (targets : list string) (knock_type : string) (fold_change noise_level : Q)
    (w : world) (r : result AnnData) (w' : world) :
  perturb_genes_counts adata gene_names targets knock_type fold_change
    noise_level w = (r, w') ->
  (forall l x, arrays w !! l = Some x -> arrays w' !! l = Some x) /\
  (forall l d, frames w !! l = Some d -> frames w' !! l = Some d) /\
  (forall out, r = Ok out -> exists o, out = copy_of w o).
Proof.
  intros Hrun. unfold perturb_genes_counts in Hrun.
  destruct (copy_cases adata w) as [Hc|(a & o & v & Hobj)].
  { rewrite (run_bind_Raise _ _ _ _ _ Hc) in Hrun. injection Hrun as <- <-.
    split; [auto|]. split; [auto|]. intros out H. discriminate. }
  rewrite (run_bind_Ok _ _ _ _ _ (copy_run w adata a o v Hobj)) in Hrun.
  rewrite (run_bind_Ok _ _ _ _ _ (read_array_run _ _ _ (after_copy_X w a o v)))
    in Hrun.
  destruct (negb (np.issubdtype_integer a)).
  { injection Hrun as <- <-.
    split; [intros l x; apply after_copy_arrays|].
    split; [intros l d; apply after_copy_frames|]. intros out H. discriminate. }
  assert (Hw : only_writes (anndata.X (copy_of w o))
                 (for_each targets
                    (perturb_gene adata (copy_of w o) (anndata.X (copy_of w o))
                       gene_names knock_type fold_change noise_level);;
                  anndata.set_X (copy_of w o) (anndata.X (copy_of w o)))).
  { apply only_writes_bind; [|intros _; apply only_writes_set_X].
    apply only_writes_for_each. intros g. apply only_writes_perturb_gene. }
  destruct (Hw _ _ _ Hrun) as [Hfr Har].
  split; [|split].
  - intros l x Hl. rewrite Har; [apply after_copy_arrays, Hl|].
    intros ->. destruct (copy_of_fresh w o) as [H _]. congruence.
  - intros l d Hl. rewrite Hfr. apply after_copy_frames, Hl.
  - intros out ->. exists o. rewrite run_bind in Hrun.
    destruct (for_each targets _ (after_copy w a o v)) as [[[]|e] w1];
      [|discriminate].
    rewrite (set_X_result _ _ _ _ _ Hrun). reflexivity.
Qed.

(** ** The generated matrix *)

Lemma bind_Ok_inv {A B} (m : M A) (f : A -> M B) (w w' : world) (b : B) :
  (m ≫= f) w = (Ok b, w') ->
  exists a w1, m w = (Ok a, w1) /\ f a w1 = (Ok b, w').
Proof.
  rewrite run_bind. destruct (m w) as [[a|e] w1]; [eauto|discriminate].
Qed.

Lemma map_M_Forall {A B} (f : A -> M B) (P : B -> Prop) (xs : list A) :
  (forall a w b w', f a w = (Ok b, w') -> P b /\ arrays w' = arrays w) ->
  forall w ys w', map_M f xs w = (Ok ys, w') ->
    Forall P ys /\ arrays w' = arrays w.
Proof.
  intros Hf. induction xs as [|x xs IH]; intros w ys w' Hrun; simpl in Hrun.
  - injection Hrun as <- <-. auto.
  - apply bind_Ok_inv in Hrun as (y & w1 & Hy & Hrun).
    apply bind_Ok_inv in Hrun as (ys' & w2 & Hys & Hrun).
    injection Hrun as <- <-.
    destruct (Hf _ _ _ _ Hy) as [Py E1], (IH _ _ _ Hys) as [Pys E2].
    split; [constructor; assumption|congruence].
Qed.

Lemma randint_draw_range (low high : Z) (w : world) (x : Z) (w' : world) :
  low < high -> np.randint_draw low high w = (Ok x, w') ->
  low <= x < high /\ arrays w' = arrays w.
Proof.
  intros Hlt Hrun. unfold np.randint_draw, np.next_outcome in Hrun.
  rewrite run_bind in Hrun. injection Hrun as <- <-.
  split; [|reflexivity].
  pose proof (Z.mod_pos_bound (Z.of_N (tape (rng w) (cursor (rng w))))
                (high - low) ltac:(lia)). lia.
Qed.

Lemma keeps_arrays_bind {A B} (m : M A) (f : A -> M B) :
  keeps_arrays m -> (forall a, keeps_arrays (f a)) -> keeps_arrays (m ≫= f).
Proof.
  intros Hm Hf w r w' Hrun. rewrite run_bind in Hrun.
  destruct (m w) as [[a|e] w1] eqn:Hmw.
  - rewrite (Hf a _ _ _ Hrun). apply (Hm _ _ _ Hmw).
  - injection Hrun as <- <-. apply (Hm _ _ _ Hmw).
Qed.

Lemma keeps_arrays_ret {A} (a : A) : keeps_arrays (mret a).
Proof. intros w r w' H. injection H as _ <-. reflexivity. Qed.

Lemma keeps_arrays_raise {A} (e : exn) : keeps_arrays (@raise A e).
Proof. intros w r w' H. injection H as _ <-. reflexivity. Qed.

Lemma keeps_arrays_read_frame (l : loc) : keeps_arrays (read_frame l).
Proof.
  intros w r w' H. unfold read_frame in H.
  destruct (frames w !! l); injection H as _ <-; reflexivity.
Qed.

Lemma keeps_arrays_write_frame (l : loc) (d : DataFrame) :
  keeps_arrays (write_frame l d).
Proof. intros w r w' H. injection H as _ <-. reflexivity. Qed.

Lemma keeps_arrays_set_index (l : loc) (labels : list string) :
  keeps_arrays (pd.set_index l labels).
Proof.
  apply keeps_arrays_bind; [apply keeps_arrays_read_frame|]. intros d.
  destruct (decide _); [apply keeps_arrays_write_frame|apply keeps_arrays_raise].
Qed.

Lemma keeps_arrays_set_column (l : loc) (key : string) (values : list string) :
  keeps_arrays (pd.set_column l key values).
Proof.
  apply keeps_arrays_bind; [apply keeps_arrays_read_frame|]. intros d.
  destruct (decide _); [apply keeps_arrays_write_frame|apply keeps_arrays_raise].
Qed.

(** The object [AnnData(X = x)] holds the array [x] itself. *)
Lemma new_run (x : loc) (w : world) (adata : AnnData) (w' : world) :
  anndata.new x w = (Ok adata, w') ->
  anndata.X adata = x /\ arrays w' = arrays w.
Proof.
  unfold anndata.new, read_array, alloc_frame. rewrite run_bind.
  destruct (arrays w !! x); [|discriminate]. rewrite !run_bind.
  intros H. injection H as <- <-. split; reflexivity.
Qed.

(** Whatever [max_count] is, a matrix that [simulate_count_data] returns has
    the requested shape and entries in [[0, 512)]. *)
Lemma simulate_count_data_entries (n_gene n_samples max_count : Z) (w : world)
    (adata : AnnData) (w' : world) :
  simulate_count_data n_gene n_samples max_count w = (Ok adata, w') ->
  exists rows,
    arrays w' !! anndata.X adata =
      Some (NDArray (Z.to_nat n_gene) (Z.to_nat n_samples) (Ints rows)) /\
    Forall (Forall (fun c => 0 <= c < 512)) rows.
Proof.
  intros Hrun. unfold simulate_count_data in Hrun.
  apply bind_Ok_inv in Hrun as (x & w1 & Hx & Hrun).
  apply bind_Ok_inv in Hrun as (ad & w2 & Hnew & Hrun).
  destruct (new_run _ _ _ _ Hnew) as [HX Har2].
  assert (Hrest : arrays w' = arrays w2 /\ adata = ad).
  { apply bind_Ok_inv in Hrun as (n & w3 & Hn & Hrun).
    apply bind_Ok_inv in Hrun as (m & w4 & Hm & Hrun).
    apply bind_Ok_inv in Hrun as ([] & w5 & H5 & Hrun).
    apply bind_Ok_inv in Hrun as ([] & w6 & H6 & Hrun).
    apply bind_Ok_inv in Hrun as ([] & w7 & H7 & Hrun).
    apply bind_Ok_inv in Hrun as ([] & w8 & H8 & Hrun).
    injection Hrun as <- <-. split; [|reflexivity].
    rewrite (keeps_arrays_set_column _ _ _ _ _ _ H8).
    rewrite (keeps_arrays_set_column _ _ _ _ _ _ H7).
    rewrite (keeps_arrays_set_index _ _ _ _ _ H6).
    rewrite (keeps_arrays_set_index _ _ _ _ _ H5).
    assert (E4 : arrays w4 = arrays w3).
    { revert Hm. apply keeps_arrays_bind; [apply keeps_arrays_read_frame|].
      intros d. apply keeps_arrays_ret. }
    assert (E3 : arrays w3 = arrays w2).
    { revert Hn. apply keeps_arrays_bind; [apply keeps_arrays_read_frame|].
      intros d. apply keeps_arrays_ret. }
    congruence. }
  destruct Hrest as [Har ->]. rewrite Har, Har2, HX. clear Hrun Hnew.
  unfold np.random_randint in Hx.
  destruct (decide (512 <= 0)); [lia|].
  destruct (decide (n_gene < 0 \/ n_samples < 0)); [discriminate|].
  apply bind_Ok_inv in Hx as (rows & w0 & Hrows & Hx).
  unfold alloc_array in Hx. injection Hx as <- <-. simpl.
  exists rows. split; [apply lookup_insert_eq|].
  apply (map_M_Forall _ (Forall (fun c => 0 <= c < 512)) _) in Hrows;
    [apply Hrows|].
  intros _ wa row wb Hrow.
  apply (map_M_Forall _ (fun c => 0 <= c < 512) _) in Hrow; [exact Hrow|].
  intros _ wc c wd Hc. apply (randint_draw_range 0 512 wc c wd); [lia|exact Hc].
Qed.

(** ** The small data set *)

Lemma ex_object : object_at ex_world ex_adata ex_matrix ex_obs ex_var.
Proof. repeat split. Qed.

Lemma ex_shape : well_shaped ex_matrix ex_obs ex_var.
Proof.
  split; [|split; [reflexivity|split; [reflexivity|]]].
  - split; [reflexivity|]. repeat constructor.
  - apply map_Forall_singleton. reflexivity.
Qed.

Lemma ex_gene_index :
  columns ex_var !! "gene_names" = Some ["GENE0"; "GENE1"; "GENE2"].
Proof. reflexivity. Qed.

(** * The claims *)

(** C1, as the code has it.  On a matrix of an integer dtype, a [knock_type]
    other than ["knock-down"] and ["knock-up"] is refused with
    [ValueError("knock_type must be 'knock-up' or 'knock-down'")] as soon as
    one target name is in the gene index, whether the other names are or
    not; the input matrix is as it was. *)
Theorem unknown_kind_rejected (adata : AnnData) (gene_names : string)
    (target_genes : list string) (knock_type : string)
    (fold_change noise_level : Q) (w : world) (a : ndarray) (o v : DataFrame)
    (rows : list (list Z)) (names : list string) :
  object_at w adata a o v -> well_shaped a o v -> data a = Ints rows ->
  columns v !! gene_names = Some names ->
  knock_type <> "knock-down" -> knock_type <> "knock-up" ->
  (exists gene, gene ∈ target_genes /\ gene ∈ names) ->
  exists w',
    perturb_genes_counts adata gene_names target_genes knock_type fold_change
      noise_level w =
      (Raise (ValueError "knock_type must be 'knock-up' or 'knock-down'"), w') /\
    arrays w' !! anndata.X adata = Some a.
Proof.
  intros Hobj Hshape Hdata Hnames H1 H2 Hres.
  rewrite (perturb_genes_counts_run adata gene_names target_genes knock_type
             fold_change noise_level w a o v rows names Hobj Hshape Hdata Hnames).
  destruct (loop_bad_kind adata (copy_of w o) gene_names knock_type fold_change
              noise_level names (n_rows a) (n_cols a) rows target_genes H1 H2
              Hres _ (after_copy_inv w adata gene_names a o v rows names
                        Hobj Hshape Hdata Hnames)) as (out & Hrun).
  rewrite Hrun. eexists. split; [reflexivity|].
  simpl. apply (after_copy_arrays w a a o v). apply Hobj.
Qed.

Lemma unknown_kind_rejected_witness :
  exists w',
    perturb_genes_counts ex_adata "gene_names" ["GENE999"; "GENE0"] "scramble"
      0.5 0.1 ex_world =
      (Raise (ValueError "knock_type must be 'knock-up' or 'knock-down'"), w') /\
    arrays w' !! anndata.X ex_adata = Some ex_matrix.
Proof.
  apply (unknown_kind_rejected ex_adata "gene_names" ["GENE999"; "GENE0"]
           "scramble" 0.5 0.1 ex_world ex_matrix ex_obs ex_var
           [[3; 10; 17]; [24; 31; 38]] ["GENE0"; "GENE1"; "GENE2"]
           ex_object ex_shape eq_refl ex_gene_index).
  - discriminate.
  - discriminate.
  - exists "GENE0". split.
    + apply elem_of_cons. right. apply elem_of_cons. left. reflexivity.
    + apply elem_of_cons. left. reflexivity.
Defined.

(** C1, as stated, fails: with the targets [["GENE999"]], none of which is in
    the gene index, the call with [knock_type = "scramble"] returns an
    object and raises nothing. *)
Lemma unknown_kind_accepted_without_resolved_target :
  fst (perturb_genes_counts ex_adata "gene_names" ["GENE999"] "scramble" 0.5
         0.1 ex_world) =
  Ok {| anndata.X := 2%positive; anndata.obs := 3%positive;
        anndata.var := 4%positive |}.
Proof. vm_compute. reflexivity. Qed.

(** C2.  Non-target invariance: after a successful call, the column of the
    returned matrix at the position of a gene whose name is not among the
    targets has, entry by entry, the values of the input matrix. *)
Theorem non_target_columns_unchanged (adata : AnnData) (gene_names : string)
    (target_genes : list string) (knock_type : string)
    (fold_change noise_level : Q) (w : world) (a : ndarray) (o v : DataFrame)
    (rows : list (list Z)) (names : list string) (out : AnnData) (w' : world)
    (j : nat) (g : string) :
  object_at w adata a o v -> well_shaped a o v -> data a = Ints rows ->
  columns v !! gene_names = Some names ->
  perturb_genes_counts adata gene_names target_genes knock_type fold_change
    noise_level w = (Ok out, w') ->
  names !! j = Some g -> g ∉ target_genes ->
  exists rows',
    arrays w' !! anndata.X out =
      Some (NDArray (n_rows a) (n_cols a) (Ints rows')) /\
    forall i, entry rows' i j = entry rows i j.
Proof.
  intros Hobj Hshape Hdata Hnames Hrun Hj Hg.
  destruct (call_preserves (fun rows' => forall i, entry rows' i j = entry rows i j)
              adata gene_names target_genes knock_type fold_change noise_level
              w a o v rows names out w' Hobj Hshape Hdata Hnames) as (_ & H);
    [|reflexivity|exact Hrun|exact H].
  intros rows1 gene j' k noise IH Hin Hfind _ Hlen Hnoise _ i.
  rewrite <- IH. apply entry_write_column_ne.
  - rewrite length_new_counts; unfold column; rewrite length_fmap; congruence.
  - intros ->. apply list_find_Some in Hfind as (Hj' & _). congruence.
Qed.

Lemma non_target_columns_unchanged_witness :
  exists rows',
    arrays (snd (perturb_genes_counts ex_adata "gene_names" ["GENE1"; "GENE7"]
                   "knock-up" 0.5 0.1 ex_world)) !! 2%positive =
      Some (NDArray 2 3 (Ints rows')) /\
    forall i, entry rows' i 2 = entry [[3; 10; 17]; [24; 31; 38]] i 2.
Proof.
  apply (non_target_columns_unchanged ex_adata "gene_names" ["GENE1"; "GENE7"]
           "knock-up" 0.5 0.1 ex_world ex_matrix ex_obs ex_var
           [[3; 10; 17]; [24; 31; 38]] ["GENE0"; "GENE1"; "GENE2"]
           {| anndata.X := 2%positive; anndata.obs := 3%positive;
              anndata.var := 4%positive |} _ 2%nat "GENE2"
           ex_object ex_shape eq_refl ex_gene_index).
  - vm_compute. reflexivity.
  - reflexivity.
  - intros H. apply list_elem_of_In in H. simpl in H.
    destruct H as [H|[H|[]]]; discriminate.
Defined.





(** The run of the example, in numbers: GENE7 is reported, the columns of
    GENE1 and GENE0 are rewritten, the column of GENE2 is not. *)
Example perturb_example :
  let '(r, w') := perturb_genes_counts ex_adata "gene_names"
                    ["GENE7"; "GENE1"; "GENE0"] "knock-up" 0.5 0.1 ex_world in
  r = Ok {| anndata.X := 2%positive; anndata.obs := 3%positive;
            anndata.var := 4%positive |} /\
  arrays w' !! 2%positive = Some (NDArray 2 3 (Ints [[63; 60; 17]; [102; 98; 38]])) /\
  arrays w' !! 1%positive = Some ex_matrix /\
  stdout w' = ["Gene GENE7 not found in the dataset!"].
Proof. vm_compute. auto. Qed.

(** C4.  A matrix of a non-integral dtype is refused with
    [ValueError("Count matrix must contain integer values.")], whatever the
    targets and [knock_type] are; no object is returned, and every array and
    frame of the caller holds what it held, the input matrix among them. *)
Theorem non_integral_matrix_rejected (adata : AnnData) (gene_names : string)
    (target_genes : list string) (knock_type : string)
    (fold_change noise_level : Q) (w : world) (a : ndarray) (o v : DataFrame)
    (rows : list (list Q)) :
  object_at w adata a o v -> data a = Floats rows ->
  exists w',
    perturb_genes_counts adata gene_names target_genes knock_type fold_change
      noise_level w =
      (Raise (ValueError "Count matrix must contain integer values."), w') /\
    arrays w' !! anndata.X adata = Some a /\
    (forall l x, arrays w !! l = Some x -> arrays w' !! l = Some x) /\
    (forall l d, frames w !! l = Some d -> frames w' !! l = Some d) /\
    rng w' = rng w /\ stdout w' = stdout w.
Proof.
  intros Hobj Hdata. exists (after_copy w a o v). split.
  - unfold perturb_genes_counts.
    rewrite (run_bind_Ok _ _ _ _ _ (copy_run w adata a o v Hobj)).
    rewrite (run_bind_Ok _ _ _ _ _ (read_array_run _ _ _ (after_copy_X w a o v))).
    unfold np.issubdtype_integer. rewrite Hdata. reflexivity.
  - split; [apply after_copy_arrays, Hobj|].
    split; [intros l x; apply after_copy_arrays|].
    split; [intros l d; apply after_copy_frames|].
    split; reflexivity.
Qed.

Lemma non_integral_matrix_rejected_witness :
  exists w',
    perturb_genes_counts ex_adata "gene_names" ["GENE0"] "knock-down" 0.5 0.1
      ex_float_world =
      (Raise (ValueError "Count matrix must contain integer values."), w') /\
    arrays w' !! anndata.X ex_adata = Some ex_float_matrix /\
    (forall l x, arrays ex_float_world !! l = Some x -> arrays w' !! l = Some x) /\
    (forall l d, frames ex_float_world !! l = Some d -> frames w' !! l = Some d) /\
    rng w' = rng ex_float_world /\ stdout w' = stdout ex_float_world.
Proof.
  apply (non_integral_matrix_rejected ex_adata "gene_names" ["GENE0"]
           "knock-down" 0.5 0.1 ex_float_world ex_float_matrix ex_obs ex_var
           [[0.5; 10; 17]; [24; 31; 38]]%Q).
  - repeat split.
  - reflexivity.
Defined.

(** C5.  Missing gene: the iteration for a target name that is not in the
    gene index prints one line that names it, changes nothing else and does
    not raise, and the loop goes on with the remaining targets; a call whose
    target names are all missing returns a matrix equal to the input matrix,
    with one line per name on [stdout]. *)
Theorem missing_gene_skipped (adata : AnnData) (gene_names : string)
    (target_genes : list string) (knock_type : string)
    (fold_change noise_level : Q) (w : world) (a : ndarray) (o v : DataFrame)
    (rows : list (list Z)) (names : list string) :
  object_at w adata a o v -> well_shaped a o v -> data a = Ints rows ->
  columns v !! gene_names = Some names ->
  (forall (gene : string) (rest : list string) (p : AnnData) (X : loc)
          (w0 : world),
     gene ∉ names -> frames w0 !! anndata.var adata = Some v ->
     for_each (gene :: rest)
       (perturb_gene adata p X gene_names knock_type fold_change noise_level)
       w0 =
     for_each rest
       (perturb_gene adata p X gene_names knock_type fold_change noise_level)
       (World (arrays w0) (frames w0) (rng w0)
          (stdout w0 ++ ["Gene " +:+ gene +:+ " not found in the dataset!"]))) /\
  (Forall (fun gene => gene ∉ names) target_genes ->
   exists out w',
     perturb_genes_counts adata gene_names target_genes knock_type fold_change
       noise_level w = (Ok out, w') /\
     arrays w' !! anndata.X out = Some a /\
     stdout w' =
       stdout w ++
       ((fun gene => "Gene " +:+ gene +:+ " not found in the dataset!") <$>
          target_genes)).
Proof.
  intros Hobj Hshape Hdata Hnames. split.
  - intros gene rest p X w0 Hg Hv. simpl for_each. rewrite run_bind.
    unfold perturb_gene at 1.
    rewrite (run_bind_Ok _ _ _ _ _ (column_tolist_run _ _ _ _ _ Hv Hnames)).
    rewrite bool_decide_eq_true_2 by exact Hg. reflexivity.
  - intros Hall. eexists _, _. split; [|split].
    + apply (call_identity adata gene_names target_genes knock_type
               fold_change noise_level w a o v rows names
               Hobj Hshape Hdata Hnames).
      intros g Hg Hin. rewrite Forall_forall in Hall.
      exfalso. exact (Hall g Hg Hin).
    + simpl. apply lookup_insert_eq.
    + simpl. rewrite (filter_all_missing names target_genes Hall). reflexivity.
Qed.

Lemma missing_gene_skipped_witness :
  exists out w',
    perturb_genes_counts ex_adata "gene_names" ["GENE999"] "knock-up" 0.5 0.1
      ex_world = (Ok out, w') /\
    arrays w' !! anndata.X out = Some ex_matrix /\
    stdout w' =
      stdout ex_world ++
      ((fun gene => "Gene " +:+ gene +:+ " not found in the dataset!") <$>
         ["GENE999"]).
Proof.
  apply (missing_gene_skipped ex_adata "gene_names" ["GENE999"] "knock-up" 0.5
           0.1 ex_world ex_matrix ex_obs ex_var [[3; 10; 17]; [24; 31; 38]]
           ["GENE0"; "GENE1"; "GENE2"] ex_object ex_shape eq_refl ex_gene_index).
  constructor; [|constructor].
  intros H. apply list_elem_of_In in H. simpl in H.
  destruct H as [H|[H|[H|[]]]]; discriminate.
Defined.






(** C8.  A call, however it ends, leaves every array and frame of the caller
    as it was, the input matrix and the gene index among them; the matrix
    and the frames of a returned object are at locations that did not exist
    before the call, so a later write to the returned matrix changes no
    array of the caller and a later write to an array of the caller does not
    change the returned matrix. *)
Theorem result_shares_no_storage (adata : AnnData) (gene_names : string)
    (target_genes : list string) (knock_type : string)
    (fold_change noise_level : Q) (w : world) (r : result AnnData)
    (w' : world) :
  perturb_genes_counts adata gene_names target_genes knock_type fold_change
    noise_level w = (r, w') ->
  (forall l x, arrays w !! l = Some x -> arrays w' !! l = Some x) /\
  (forall l d, frames w !! l = Some d -> frames w' !! l = Some d) /\
  forall out, r = Ok out ->
    arrays w !! anndata.X out = None /\
    frames w !! anndata.obs out = None /\
    frames w !! anndata.var out = None /\
    (forall l x y, arrays w !! l = Some x ->
       arrays (snd (write_array (anndata.X out) y w')) !! l = Some x) /\
    (forall l y, is_Some (arrays w !! l) ->
       arrays (snd (write_array l y w')) !! anndata.X out =
       arrays w' !! anndata.X out).
Proof.
  intros Hrun.
  destruct (perturb_genes_counts_frame adata gene_names target_genes knock_type
              fold_change noise_level w r w' Hrun) as (Har & Hfr & Hout).
  split; [exact Har|]. split; [exact Hfr|].
  intros out Hr. destruct (Hout out Hr) as [o ->].
  destruct (copy_of_fresh w o) as (HX & Hobs & Hvar).
  split; [exact HX|]. split; [exact Hobs|]. split; [exact Hvar|]. split.
  - intros l x y Hl. unfold write_array. cbn [snd arrays].
    rewrite lookup_insert_ne; [apply Har, Hl|].
    intros E. rewrite <- E in Hl. congruence.
  - intros l y [x Hl]. unfold write_array. cbn [snd arrays].
    apply lookup_insert_ne.
    intros E. rewrite E in Hl. congruence.
Qed.

Lemma result_shares_no_storage_witness :
  (forall l x, arrays ex_world !! l = Some x ->
     arrays (snd (perturb_genes_counts ex_adata "gene_names" ["GENE1"]
                    "knock-up" 0.5 0.1 ex_world)) !! l = Some x) /\
  (forall l d, frames ex_world !! l = Some d ->
     frames (snd (perturb_genes_counts ex_adata "gene_names" ["GENE1"]
                    "knock-up" 0.5 0.1 ex_world)) !! l = Some d) /\
  forall out,
    fst (perturb_genes_counts ex_adata "gene_names" ["GENE1"] "knock-up" 0.5
           0.1 ex_world) = Ok out ->
    arrays ex_world !! anndata.X out = None /\
    frames ex_world !! anndata.obs out = None /\
    frames ex_world !! anndata.var out = None /\
    (forall l x y, arrays ex_world !! l = Some x ->
       arrays (snd (write_array (anndata.X out) y
                      (snd (perturb_genes_counts ex_adata "gene_names"
                              ["GENE1"] "knock-up" 0.5 0.1 ex_world))))
         !! l = Some x) /\
    (forall l y, is_Some (arrays ex_world !! l) ->
       arrays (snd (write_array l y
                      (snd (perturb_genes_counts ex_adata "gene_names"
                              ["GENE1"] "knock-up" 0.5 0.1 ex_world))))
         !! anndata.X out =
       arrays (snd (perturb_genes_counts ex_adata "gene_names" ["GENE1"]
                      "knock-up" 0.5 0.1 ex_world)) !! anndata.X out).
Proof.
  apply (result_shares_no_storage ex_adata "gene_names" ["GENE1"] "knock-up"
           0.5 0.1 ex_world).
  apply surjective_pairing.
Defined.

(** C9.  When the matrix has an integer dtype and no target name is in the
    gene index (the empty target list included), the call returns, for every
    value of [knock_type], a matrix equal to the input matrix: the check of
    [knock_type] is not reached. *)
Theorem unresolved_targets_skip_kind_check (adata : AnnData)
    (gene_names : string) (target_genes : list string) (knock_type : string)
    (fold_change noise_level : Q) (w : world) (a : ndarray) (o v : DataFrame)
    (rows : list (list Z)) (names : list string) :
  object_at w adata a o v -> well_shaped a o v -> data a = Ints rows ->
  columns v !! gene_names = Some names ->
  Forall (fun gene => gene ∉ names) target_genes ->
  exists out w',
    perturb_genes_counts adata gene_names target_genes knock_type fold_change
      noise_level w = (Ok out, w') /\
    arrays w' !! anndata.X out = Some a /\
    arrays w' !! anndata.X adata = Some a.
Proof.
  intros Hobj Hshape Hdata Hnames Hall. eexists _, _. split; [|split].
  - apply (call_identity adata gene_names target_genes knock_type
             fold_change noise_level w a o v rows names
             Hobj Hshape Hdata Hnames).
    intros g Hg Hin. rewrite Forall_forall in Hall.
    exfalso. exact (Hall g Hg Hin).
  - simpl. apply lookup_insert_eq.
  - apply after_copy_arrays. apply Hobj.
Qed.

Lemma unresolved_targets_skip_kind_check_witness :
  exists out w',
    perturb_genes_counts ex_adata "gene_names" [] "scramble" 0.5 0.1 ex_world =
      (Ok out, w') /\
    arrays w' !! anndata.X out = Some ex_matrix /\
    arrays w' !! anndata.X ex_adata = Some ex_matrix.
Proof.
  apply (unresolved_targets_skip_kind_check ex_adata "gene_names" [] "scramble"
           0.5 0.1 ex_world ex_matrix ex_obs ex_var [[3; 10; 17]; [24; 31; 38]]
           ["GENE0"; "GENE1"; "GENE2"] ex_object ex_shape eq_refl ex_gene_index).
  constructor.
Defined.

(** C10, as the code has it: [max_count] is not used.  Whatever [max_count]
    is, the call does what it does for 512 and the entries of the matrix it
    returns are in [[0, 512)]; with [max_count = 10], a run whose generator
    gives 511 returns a matrix with the entry 511, outside [[0, 10)]. *)
Theorem simulate_count_data_ignores_max_count :
  (forall n_gene n_samples max_count w,
     simulate_count_data n_gene n_samples max_count w =
     simulate_count_data n_gene n_samples 512 w) /\
  (forall n_gene n_samples max_count w adata w',
     simulate_count_data n_gene n_samples max_count w = (Ok adata, w') ->
     exists rows,
       arrays w' !! anndata.X adata =
         Some (NDArray (Z.to_nat n_gene) (Z.to_nat n_samples) (Ints rows)) /\
       Forall (Forall (fun c => 0 <= c < 512)) rows) /\
  let '(r, w') :=
    simulate_count_data 1 1 10
      (World ∅ ∅ {| tape := fun _ => 511%N; cursor := 0 |} []) in
  r = Ok {| anndata.X := 1%positive; anndata.obs := 1%positive;
            anndata.var := 2%positive |} /\
  arrays w' !! 1%positive = Some (NDArray 1 1 (Ints [[511]])) /\
  (511 <? 10) = false.
Proof.
  split; [reflexivity|]. split; [apply simulate_count_data_entries|].
  vm_compute. auto.
Qed.

(** * Further lemmas *)

(** ** The run of [simulate_count_data] *)

Lemma map_M_cursor {A B} (f : A -> M B) (P : B -> Prop) (k : nat)
    (xs : list A) :
  (forall a w, exists b,
     f a w = (Ok b, with_cursor w (cursor (rng w) + k)) /\ P b) ->
  forall w, exists ys,
    map_M f xs w = (Ok ys, with_cursor w (cursor (rng w) + k * length xs)) /\
    length ys = length xs /\ Forall P ys.
Proof.
  intros Hf. induction xs as [|x xs IH]; intros w.
  - exists []. simpl. rewrite Nat.mul_0_r, Nat.add_0_r, with_cursor_id. auto.
  - destruct (Hf x w) as (y & Hy & Py).
    destruct (IH (with_cursor w (cursor (rng w) + k))) as (ys & Hys & Hlen & Pys).
    exists (y :: ys). simpl map_M.
    rewrite (run_bind_Ok _ _ _ _ _ Hy), (run_bind_Ok _ _ _ _ _ Hys).
    split; [|split; [simpl; congruence|constructor; assumption]].
    unfold mret, M_ret. f_equal. unfold with_cursor. simpl. do 2 f_equal. lia.
Qed.

Lemma randint_draw_run (low high : Z) (w : world) :
  low < high ->
  exists x, np.randint_draw low high w =
              (Ok x, with_cursor w (cursor (rng w) + 1)) /\
            low <= x < high.
Proof.
  intros Hlt. eexists. split.
  - unfold np.randint_draw, np.next_outcome. rewrite run_bind. unfold mret, M_ret.
    f_equal. unfold with_cursor. simpl. do 2 f_equal. lia.
  - pose proof (Z.mod_pos_bound (Z.of_N (tape (rng w) (cursor (rng w))))
                  (high - low) ltac:(lia)). lia.
Qed.

Lemma set_index_run (w : world) (l : loc) (d : DataFrame)
    (labels : list string) :
  frames w !! l = Some d -> length labels = length (index d) ->
  pd.set_index l labels w =
  (Ok tt,
   World (arrays w) (<[l := {| index := labels; columns := columns d |}]> (frames w))
     (rng w) (stdout w)).
Proof.
  intros Hd Hlen. unfold pd.set_index.
  rewrite (run_bind_Ok _ _ _ _ _ (read_frame_run _ _ _ Hd)).
  destruct (decide _); [reflexivity|contradiction].
Qed.

Lemma set_column_run (w : world) (l : loc) (d : DataFrame) (key : string)
    (values : list string) :
  frames w !! l = Some d -> length values = length (index d) ->
  pd.set_column l key values w =
  (Ok tt,
   World (arrays w)
     (<[l := {| index := index d; columns := <[key := values]> (columns d) |}]>
        (frames w))
     (rng w) (stdout w)).
Proof.
  intros Hd Hlen. unfold pd.set_column.
  rewrite (run_bind_Ok _ _ _ _ _ (read_frame_run _ _ _ Hd)).
  destruct (decide _); [reflexivity|contradiction].
Qed.

Lemma length_labels (prefix : string) (n : nat) : length (labels prefix n) = n.
Proof. unfold labels. rewrite length_fmap, length_seq. reflexivity. Qed.

Lemma random_randint_run (low high r c : Z) (w : world) :
  low < high -> 0 <= r -> 0 <= c ->
  exists rows,
    np.random_randint low high r c w =
      (Ok (fresh (dom (arrays w))),
       World (<[fresh (dom (arrays w)) :=
                  NDArray (Z.to_nat r) (Z.to_nat c) (Ints rows)]> (arrays w))
         (frames w)
         {| tape := tape (rng w);
            cursor := cursor (rng w) + Z.to_nat r * Z.to_nat c |}
         (stdout w)) /\
    rectangular (Z.to_nat r) (Z.to_nat c) rows /\
    Forall (Forall (fun x => low <= x < high)) rows.
Proof.
  intros Hlt Hr Hc. unfold np.random_randint.
  destruct (decide (high <= low)); [lia|].
  destruct (decide (r < 0 \/ c < 0)); [lia|].
  destruct (map_M_cursor
              (fun _ : nat => map_M (fun _ : nat => np.randint_draw low high)
                                (seq 0 (Z.to_nat c)))
              (fun row => length row = Z.to_nat c /\
                          Forall (fun x => low <= x < high) row)
              (Z.to_nat c) (seq 0 (Z.to_nat r))) with (w := w)
    as (rows & Hrows & Hlen & Hall).
  { intros _ w0.
    destruct (map_M_cursor (fun _ : nat => np.randint_draw low high)
                (fun x => low <= x < high) 1 (seq 0 (Z.to_nat c))) with (w := w0)
      as (row & Hrow & Hl & Hrange).
    { intros _ w1. apply randint_draw_run, Hlt. }
    exists row. rewrite length_seq in Hrow, Hl. rewrite Nat.mul_1_l in Hrow.
    auto. }
  rewrite length_seq in Hrows, Hlen.
  exists rows. rewrite (run_bind_Ok _ _ _ _ _ Hrows). split; [|split].
  - unfold alloc_array, with_cursor. simpl. do 3 f_equal. lia.
  - split; [exact Hlen|]. eapply Forall_impl; [exact Hall|]. intros row H. apply H.
  - eapply Forall_impl; [exact Hall|]. intros row H. apply H.
Qed.

Lemma anndata_new_run (w : world) (x : loc) (a : ndarray) :
  arrays w !! x = Some a ->
  anndata.new x w =
  (Ok {| anndata.X := x;
         anndata.obs := fresh (dom (frames w));
         anndata.var :=
           fresh (dom (<[fresh (dom (frames w)) :=
                           {| index := pretty <$> seq 0 (n_rows a);
                              columns := ∅ |}]> (frames w))) |},
   World (arrays w)
     (<[fresh (dom (<[fresh (dom (frames w)) :=
                        {| index := pretty <$> seq 0 (n_rows a);
                           columns := ∅ |}]> (frames w))) :=
          {| index := pretty <$> seq 0 (n_cols a); columns := ∅ |}]>
        (<[fresh (dom (frames w)) :=
             {| index := pretty <$> seq 0 (n_rows a); columns := ∅ |}]>
           (frames w)))
     (rng w) (stdout w)).
Proof.
  intros Ha. unfold anndata.new.
  rewrite (run_bind_Ok _ _ _ _ _ (read_array_run _ _ _ Ha)). reflexivity.
Qed.

Lemma n_obs_run (w : world) (adata : AnnData) (d : DataFrame) :
  frames w !! anndata.obs adata = Some d ->
  anndata.n_obs adata w = (Ok (length (index d)), w).
Proof.
  intros Hd. unfold anndata.n_obs.
  rewrite (run_bind_Ok _ _ _ _ _ (read_frame_run _ _ _ Hd)). reflexivity.
Qed.

Lemma n_vars_run (w : world) (adata : AnnData) (d : DataFrame) :
  frames w !! anndata.var adata = Some d ->
  anndata.n_vars adata w = (Ok (length (index d)), w).
Proof.
  intros Hd. unfold anndata.n_vars.
  rewrite (run_bind_Ok _ _ _ _ _ (read_frame_run _ _ _ Hd)). reflexivity.
Qed.

(** What [simulate_count_data] does for non-negative dimensions: it returns
    an object whose new matrix has [n_gene] rows and [n_samples] columns of
    entries in [[0, 512)], whose observations are labelled [CELL0], ... (one
    per row) and whose variables are labelled [GENE0], ... (one per column);
    it takes one outcome of the generator per entry and leaves the arrays
    and frames that existed as they were. *)
Lemma simulate_count_data_run (n_gene n_samples max_count : Z) (w : world) :
  0 <= n_gene -> 0 <= n_samples ->
  exists adata w' rows,
    simulate_count_data n_gene n_samples max_count w = (Ok adata, w') /\
    arrays w' !! anndata.X adata =
      Some (NDArray (Z.to_nat n_gene) (Z.to_nat n_samples) (Ints rows)) /\
    rectangular (Z.to_nat n_gene) (Z.to_nat n_samples) rows /\
    Forall (Forall (fun x => 0 <= x < 512)) rows /\
    frames w' !! anndata.obs adata =
      Some (labelled_frame "samples" "CELL" (Z.to_nat n_gene)) /\
    frames w' !! anndata.var adata =
      Some (labelled_frame "gene_names" "GENE" (Z.to_nat n_samples)) /\
    (forall l x, arrays w !! l = Some x -> arrays w' !! l = Some x) /\
    (forall l d, frames w !! l = Some d -> frames w' !! l = Some d) /\
    arrays w !! anndata.X adata = None /\
    rng w' = {| tape := tape (rng w);
                cursor := cursor (rng w) +
                          Z.to_nat n_gene * Z.to_nat n_samples |} /\
    stdout w' = stdout w.
Proof.
  intros Hg Hs.
  destruct (random_randint_run 0 512 n_gene n_samples w ltac:(lia) Hg Hs)
    as (rows & Hrand & Hrect & Hrange).
  set (r := Z.to_nat n_gene) in *. set (c := Z.to_nat n_samples) in *.
  set (lx := fresh (dom (arrays w))) in *.
  set (lo := fresh (dom (frames w))).
  set (O1 := {| index := pretty <$> seq 0 r; columns := ∅ |}).
  set (V1 := {| index := pretty <$> seq 0 c; columns := ∅ |}).
  set (lv := fresh (dom (<[lo := O1]> (frames w)))).
  assert (Hne : lv <> lo).
  { intros E. apply (is_fresh (dom (<[lo := O1]> (frames w)))).
    fold lv. rewrite E. apply elem_of_dom. rewrite lookup_insert_eq. eauto. }
  assert (Hlo : frames w !! lo = None) by apply not_elem_of_dom, is_fresh.
  assert (Hlv : frames w !! lv = None).
  { apply not_elem_of_dom. intros H.
    apply (is_fresh (dom (<[lo := O1]> (frames w)))).
    apply dom_insert_subseteq. exact H. }
  assert (Hlx : arrays w !! lx = None) by apply not_elem_of_dom, is_fresh.
  exists {| anndata.X := lx; anndata.obs := lo; anndata.var := lv |}.
  eexists. exists rows. split.
  - unfold simulate_count_data. rewrite (run_bind_Ok _ _ _ _ _ Hrand).
    rewrite (run_bind_Ok _ _ _ _ _
               (anndata_new_run _ lx _ (lookup_insert_eq _ _ _))).
    cbn [n_rows n_cols frames arrays rng stdout]. fold r c O1 lo. fold lv. fold V1.
    erewrite run_bind_Ok.
    2:{ apply (n_obs_run _ _ O1). simpl.
        rewrite lookup_insert_ne by exact Hne. apply lookup_insert_eq. }
    erewrite run_bind_Ok.
    2:{ apply (n_vars_run _ _ V1). simpl. apply lookup_insert_eq. }
    cbn [anndata.obs anndata.var index O1 V1].
    rewrite !length_fmap, !length_seq.
    fold (labels "CELL" r). fold (labels "GENE" c).
    erewrite run_bind_Ok.
    2:{ apply (set_index_run _ lo O1); simpl.
        - rewrite lookup_insert_ne by exact Hne. apply lookup_insert_eq.
        - rewrite length_labels, length_fmap, length_seq. reflexivity. }
    erewrite run_bind_Ok.
    2:{ apply (set_index_run _ lv V1); simpl.
        - rewrite lookup_insert_ne by auto. apply lookup_insert_eq.
        - rewrite length_labels, length_fmap, length_seq. reflexivity. }
    erewrite run_bind_Ok.
    2:{ apply set_column_run; simpl.
        - rewrite lookup_insert_ne by exact Hne. apply lookup_insert_eq.
        - reflexivity. }
    erewrite run_bind_Ok.
    2:{ apply set_column_run; simpl.
        - rewrite lookup_insert_ne by auto. apply lookup_insert_eq.
        - reflexivity. }
    reflexivity.
  - cbn [arrays frames rng stdout anndata.X anndata.obs anndata.var index columns].
    split; [apply lookup_insert_eq|]. split; [exact Hrect|].
    split; [exact Hrange|].
    split; [rewrite lookup_insert_ne by exact Hne; apply lookup_insert_eq|].
    split; [apply lookup_insert_eq|].
    split.
    { intros l x Hl. rewrite lookup_insert_ne; [exact Hl|]. congruence. }
    split.
    { intros l d Hl.
      assert (l <> lo) by congruence. assert (l <> lv) by congruence.
      rewrite !lookup_insert_ne by auto. exact Hl. }
    split; [exact Hlx|]. split; reflexivity.
Qed.

(** ** When a call returns, and what it returns *)


Lemma intensities_negative (noise_level k : Q) (col : list Z) :
  (noise_level < 0)%Q -> col <> [] ->
  existsb (fun l => Qlt_bool l 0) (intensities noise_level k col) = true.
Proof.
  intros Hnl Hcol. destruct col as [|c col]; [contradiction|].
  unfold intensities, np.scalar_mul, np.maximum, scaled_counts, np.astype_int,
    np.mul_scalar. simpl. apply orb_true_iff. left.
  unfold Qlt_bool. apply negb_true_iff.
  destruct (Qle_bool 0 _) eqn:E; [|reflexivity].
  apply Qle_bool_iff in E. exfalso.
  revert E Hnl. unfold Qle, Qlt. simpl.
  set (m := Z.max (Qtrunc (inject_Z c * k)) 1). intros E Hnl.
  assert (1 <= m) by (unfold m; lia). nia.
Qed.


(** What the loop leaves, however it ends: the copy is count data of the
    shape of the input, with frames equal to those of the input. *)
Lemma loop_result_object (adata : AnnData) (gene_names : string)
    (targets : list string) (knock_type : string) (fold_change noise_level : Q)
    (w : world) (a : ndarray) (o v : DataFrame) (rows : list (list Z))
    (names : list string) (r : result unit) (w2 : world) :
  object_at w adata a o v -> well_shaped a o v -> data a = Ints rows ->
  columns v !! gene_names = Some names ->
  for_each targets
    (perturb_gene adata (copy_of w o) (anndata.X (copy_of w o)) gene_names
       knock_type fold_change noise_level) (after_copy w a o v) = (r, w2) ->
  exists rows' : list (list Z),
    object_at w2 (copy_of w o) (NDArray (n_rows a) (n_cols a) (Ints rows')) o v /\
    well_shaped (NDArray (n_rows a) (n_cols a) (Ints rows')) o v /\
    loop_inv adata (copy_of w o) gene_names names (n_rows a) (n_cols a) w2 rows'.
Proof.
  intros Hobj Hshape Hdata Hnames Hloop.
  pose proof (after_copy_inv w adata gene_names a o v rows names
                Hobj Hshape Hdata Hnames) as Hinv.
  destruct (loop_preserves adata (copy_of w o) gene_names knock_type fold_change
              noise_level names (n_rows a) (n_cols a) (fun _ => True) targets
              ltac:(auto) _ _ _ _ Hinv I Hloop) as (rows' & Hinv' & _ & Hfr & _).
  exists rows'. destruct Hshape as (_ & Ho & Hv & Hcols).
  split; [split; [|split]|split; [split; [|auto]|exact Hinv']].
  - apply (inv_X _ _ _ _ _ _ _ _ Hinv').
  - rewrite Hfr. unfold after_copy. simpl.
    rewrite lookup_insert_ne; [apply lookup_insert_eq|].
    intros E. apply (is_fresh (dom (<[fresh (dom (frames w)) := o]> (frames w)))).
    rewrite E. apply elem_of_dom. rewrite lookup_insert_eq. eauto.
  - rewrite Hfr. unfold after_copy. simpl. apply lookup_insert_eq.
  - simpl. split; [apply (inv_rows _ _ _ _ _ _ _ _ Hinv')
                  |apply (inv_width _ _ _ _ _ _ _ _ Hinv')].
Qed.

(** With a negative [noise_level] and a matrix that has a row, the first
    target that resolves makes [np.random.poisson] raise; until then the loop
    has only printed. *)
Lemma loop_negative_noise (adata p : AnnData) (gene_names knock_type : string)
    (fold_change noise_level : Q) (names : list string) (n m : nat) (k : Q)
    (rows : list (list Z)) (targets : list string) :
  knock_factor knock_type fold_change = Some k -> (noise_level < 0)%Q ->
  (0 < n)%nat ->
  (exists g, g ∈ targets /\ g ∈ names) ->
  forall w, loop_inv adata p gene_names names n m w rows ->
  exists out,
    for_each targets
      (perturb_gene adata p (anndata.X p) gene_names knock_type fold_change
         noise_level) w =
    (Raise (ValueError "lam < 0"), World (arrays w) (frames w) (rng w) out).
Proof.
  intros Hk Hnl Hn.
  induction targets as [|gene targets IH]; intros (g & Hg & Hin) w Hinv.
  { inversion Hg. }
  simpl for_each. rewrite run_bind.
  destruct (decide (gene ∈ names)) as [Hin'|Hout].
  - destruct (list_find (fun y => y = gene) names) as [[j g']|] eqn:Hfind.
    2:{ apply list_find_None in Hfind. rewrite Forall_forall in Hfind.
        exfalso. exact (Hfind gene Hin' eq_refl). }
    assert (g' = gene) as -> by (apply list_find_Some in Hfind; tauto).
    assert (Hcol : column j rows <> []).
    { intros E. apply (f_equal length) in E. unfold column in E.
      rewrite length_fmap, (inv_rows _ _ _ _ _ _ _ _ Hinv) in E. simpl in E. lia. }
    destruct (step_found adata p gene_names knock_type fold_change noise_level
                names n m w rows gene j k Hinv Hfind Hk)
      as [[_ Hb]|(noise & c & Hr & _)].
    + rewrite Hb. exists (stdout w). destruct w. reflexivity.
    + exfalso. unfold np.random_poisson in Hr.
      rewrite (intensities_negative noise_level k (column j rows) Hnl Hcol) in Hr.
      discriminate.
  - rewrite (step_missing adata p gene_names knock_type fold_change noise_level
               names n m w rows gene Hinv Hout).
    apply elem_of_cons in Hg as [->|Hg]; [contradiction|].
    destruct (IH (ex_intro _ g (conj Hg Hin)) _
                (loop_inv_print _ _ _ _ _ _ w rows (missing_line gene) Hinv))
      as (out & Hrun).
    exists out. exact Hrun.
Qed.



(** ** Bounds on the truncated product *)







(** ** Two runs of the loop on equal rows, generators and outputs *)

Lemma map_poisson_draw_same_rng (lams : list Q) (w1 w2 : world) :
  rng w1 = rng w2 ->
  exists noise c,
    map_M np.poisson_draw lams w1 = (Ok noise, with_cursor w1 c) /\
    map_M np.poisson_draw lams w2 = (Ok noise, with_cursor w2 c).
Proof.
  revert w1 w2. induction lams as [|lam lams IH]; intros w1 w2 Hrng.
  - exists [], (cursor (rng w1)). simpl. rewrite with_cursor_id.
    rewrite Hrng, with_cursor_id. auto.
  - assert (Hd : exists x c,
              np.poisson_draw lam w1 = (Ok x, with_cursor w1 c) /\
              np.poisson_draw lam w2 = (Ok x, with_cursor w2 c)).
    { unfold np.poisson_draw. destruct (Qeq_bool lam 0).
      - exists 0, (cursor (rng w1)). rewrite with_cursor_id.
        rewrite Hrng, with_cursor_id. auto.
      - exists (Z.of_N (tape (rng w1) (cursor (rng w1)))), (S (cursor (rng w1))).
        split; [reflexivity|]. rewrite Hrng. reflexivity. }
    destruct Hd as (x & c & H1 & H2).
    destruct (IH (with_cursor w1 c) (with_cursor w2 c)) as (xs & c' & H1' & H2').
    { simpl. rewrite Hrng. reflexivity. }
    exists (x :: xs), c'. simpl map_M.
    rewrite (run_bind_Ok _ _ _ _ _ H1), (run_bind_Ok _ _ _ _ _ H1').
    rewrite (run_bind_Ok _ _ _ _ _ H2), (run_bind_Ok _ _ _ _ _ H2').
    split; reflexivity.
Qed.

Lemma random_poisson_same_rng (lams : list Q) (w1 w2 : world) :
  rng w1 = rng w2 ->
  (np.random_poisson lams w1 = (Raise (ValueError "lam < 0"), w1) /\
   np.random_poisson lams w2 = (Raise (ValueError "lam < 0"), w2)) \/
  (exists noise c,
     np.random_poisson lams w1 = (Ok noise, with_cursor w1 c) /\
     np.random_poisson lams w2 = (Ok noise, with_cursor w2 c)).
Proof.
  intros Hrng. unfold np.random_poisson. destruct (existsb _ lams).
  - left. split; reflexivity.
  - right. apply map_poisson_draw_same_rng, Hrng.
Qed.

(** The loop depends on the state only through the gene index, the rows of
    the working matrix, the generator and the output: two runs on states that
    agree on these end alike. *)
Lemma loop_simulation (adata1 p1 adata2 p2 : AnnData)
    (gene_names knock_type : string) (fold_change noise_level : Q)
    (names : list string) (n m : nat) (targets : list string) :
  forall w1 w2 rows r1 w1' r2 w2',
    loop_inv adata1 p1 gene_names names n m w1 rows ->
    loop_inv adata2 p2 gene_names names n m w2 rows ->
    rng w1 = rng w2 -> stdout w1 = stdout w2 ->
    for_each targets
      (perturb_gene adata1 p1 (anndata.X p1) gene_names knock_type
         fold_change noise_level) w1 = (r1, w1') ->
    for_each targets
      (perturb_gene adata2 p2 (anndata.X p2) gene_names knock_type
         fold_change noise_level) w2 = (r2, w2') ->
    r1 = r2 /\ rng w1' = rng w2' /\ stdout w1' = stdout w2' /\
    exists rows',
      arrays w1' !! anndata.X p1 = Some (NDArray n m (Ints rows')) /\
      arrays w2' !! anndata.X p2 = Some (NDArray n m (Ints rows')).
Proof.
  induction targets as [|gene targets IH];
    intros w1 w2 rows r1 w1' r2 w2' Hinv1 Hinv2 Hrng Hout Hrun1 Hrun2.
  { simpl in Hrun1, Hrun2. injection Hrun1 as <- <-. injection Hrun2 as <- <-.
    split; [reflexivity|]. split; [exact Hrng|]. split; [exact Hout|].
    exists rows. split; [apply (inv_X _ _ _ _ _ _ _ _ Hinv1)
                       |apply (inv_X _ _ _ _ _ _ _ _ Hinv2)]. }
  assert (Hstop : forall e, (Raise e : result unit) = Raise e /\
            rng w1 = rng w2 /\ stdout w1 = stdout w2 /\
            exists rows',
              arrays w1 !! anndata.X p1 = Some (NDArray n m (Ints rows')) /\
              arrays w2 !! anndata.X p2 = Some (NDArray n m (Ints rows'))).
  { intros e. split; [reflexivity|]. split; [exact Hrng|]. split; [exact Hout|].
    exists rows. split; [apply (inv_X _ _ _ _ _ _ _ _ Hinv1)
                       |apply (inv_X _ _ _ _ _ _ _ _ Hinv2)]. }
  simpl in Hrun1, Hrun2. rewrite run_bind in Hrun1, Hrun2.
  destruct (decide (gene ∈ names)) as [Hin|Hmiss].
  2:{ rewrite (step_missing adata1 p1 gene_names knock_type fold_change
                 noise_level names n m w1 rows gene Hinv1 Hmiss) in Hrun1.
      rewrite (step_missing adata2 p2 gene_names knock_type fold_change
                 noise_level names n m w2 rows gene Hinv2 Hmiss) in Hrun2.
      apply (IH _ _ rows _ _ _ _
               (loop_inv_print _ _ _ _ _ _ w1 rows _ Hinv1)
               (loop_inv_print _ _ _ _ _ _ w2 rows _ Hinv2)
               Hrng ltac:(simpl; rewrite Hout; reflexivity) Hrun1 Hrun2). }
  destruct (list_find (fun y => y = gene) names) as [[j g]|] eqn:Hfind.
  2:{ apply list_find_None in Hfind. rewrite Forall_forall in Hfind.
      exfalso. exact (Hfind gene Hin eq_refl). }
  assert (g = gene) as -> by (apply list_find_Some in Hfind; tauto).
  destruct (knock_factor knock_type fold_change) as [k|] eqn:Hk.
  2:{ destruct (knock_factor_cases knock_type fold_change)
        as [[_ Hk']|[[_ Hk']|(H1 & H2 & _)]]; try congruence.
      rewrite (step_bad_kind adata1 p1 gene_names knock_type fold_change
                 noise_level names n m w1 rows gene Hinv1 Hin H1 H2) in Hrun1.
      rewrite (step_bad_kind adata2 p2 gene_names knock_type fold_change
                 noise_level names n m w2 rows gene Hinv2 Hin H1 H2) in Hrun2.
      injection Hrun1 as <- <-. injection Hrun2 as <- <-. apply Hstop. }
  destruct (random_poisson_same_rng
              (intensities noise_level k (column j rows)) w1 w2 Hrng)
    as [[Hp1 Hp2]|(noise & c & Hp1 & Hp2)].
  - destruct (step_found adata1 p1 gene_names knock_type fold_change
                noise_level names n m w1 rows gene j k Hinv1 Hfind Hk)
      as [[_ Hb1]|(x & y & Hr & _)]; [|rewrite Hp1 in Hr; discriminate].
    destruct (step_found adata2 p2 gene_names knock_type fold_change
                noise_level names n m w2 rows gene j k Hinv2 Hfind Hk)
      as [[_ Hb2]|(x & y & Hr & _)]; [|rewrite Hp2 in Hr; discriminate].
    rewrite Hb1 in Hrun1. rewrite Hb2 in Hrun2.
    injection Hrun1 as <- <-. injection Hrun2 as <- <-. apply Hstop.
  - destruct (step_found adata1 p1 gene_names knock_type fold_change
                noise_level names n m w1 rows gene j k Hinv1 Hfind Hk)
      as [[Hr _]|(noise1 & c1 & Hr1 & Hlen1 & _ & Hb1)];
      [rewrite Hp1 in Hr; discriminate|].
    destruct (step_found adata2 p2 gene_names knock_type fold_change
                noise_level names n m w2 rows gene j k Hinv2 Hfind Hk)
      as [[Hr _]|(noise2 & c2 & Hr2 & Hlen2 & _ & Hb2)];
      [rewrite Hp2 in Hr; discriminate|].
    rewrite Hp1 in Hr1. injection Hr1 as <- Hc1.
    rewrite Hp2 in Hr2. injection Hr2 as <- Hc2.
    subst c1 c2.
    rewrite Hb1 in Hrun1. rewrite Hb2 in Hrun2.
    set (rows1 := write_column j rows (new_counts k (column j rows) noise)) in *.
    assert (Hl : length rows1 = n).
    { unfold rows1. rewrite length_write_column;
        [apply (inv_rows _ _ _ _ _ _ _ _ Hinv1)|].
      rewrite length_new_counts; unfold column; rewrite length_fmap;
        [reflexivity|rewrite (inv_rows _ _ _ _ _ _ _ _ Hinv1); exact Hlen1]. }
    assert (Hw : Forall (fun r => length r = m) rows1).
    { apply width_write_column, (inv_width _ _ _ _ _ _ _ _ Hinv1). }
    apply (IH _ _ rows1 _ _ _ _
             (loop_inv_put_rows _ _ _ _ _ _ w1 rows rows1 c Hinv1 Hl Hw)
             (loop_inv_put_rows _ _ _ _ _ _ w2 rows rows1 c Hinv2 Hl Hw)
             ltac:(simpl; rewrite Hrng; reflexivity) Hout Hrun1 Hrun2).
Qed.

(** ** The generated object *)

Lemma simulate_count_data_negative (n_gene n_samples max_count : Z) (w : world) :
  n_gene < 0 \/ n_samples < 0 ->
  simulate_count_data n_gene n_samples max_count w =
  (Raise (ValueError "negative dimensions are not allowed"), w).
Proof.
  intros H. unfold simulate_count_data. apply run_bind_Raise.
  unfold np.random_randint. destruct (decide (512 <= 0)); [lia|].
  destruct (decide (n_gene < 0 \/ n_samples < 0)); [reflexivity|contradiction].
Qed.

Lemma simulate_count_data_Ok_inv (n_gene n_samples max_count : Z) (w : world)
    (adata : AnnData) (w' : world) :
  simulate_count_data n_gene n_samples max_count w = (Ok adata, w') ->
  0 <= n_gene /\ 0 <= n_samples.
Proof.
  intros Hrun. destruct (decide (n_gene < 0 \/ n_samples < 0)) as [H|H]; [|lia].
  rewrite (simulate_count_data_negative _ _ _ _ H) in Hrun. discriminate.
Qed.

Lemma string_app_inj (prefix a b : string) :
  prefix +:+ a = prefix +:+ b -> a = b.
Proof.
  induction prefix as [|ch prefix IH]; simpl; intros H; [exact H|].
  injection H as H. apply IH, H.
Qed.

Lemma lookup_labels (prefix : string) (n i : nat) :
  (i < n)%nat -> labels prefix n !! i = Some (prefix +:+ pretty i).
Proof.
  intros Hi. unfold labels. rewrite list_lookup_fmap, lookup_seq_lt by exact Hi.
  reflexivity.
Qed.

Lemma elem_of_labels (prefix : string) (n i : nat) :
  prefix +:+ pretty i ∈ labels prefix n <-> (i < n)%nat.
Proof.
  unfold labels. rewrite list_elem_of_fmap. split.
  - intros (i' & E & Hi'). apply string_app_inj, (inj pretty) in E. subst i'.
    apply elem_of_seq in Hi'. lia.
  - intros Hi. exists i. split; [reflexivity|]. apply elem_of_seq. lia.
Qed.

Lemma NoDup_labels (prefix : string) (n : nat) : NoDup (labels prefix n).
Proof.
  unfold labels. apply NoDup_fmap_2; [|apply NoDup_seq].
  intros i i' E. apply string_app_inj, (inj pretty) in E. exact E.
Qed.

Lemma list_find_labels (prefix : string) (n i : nat) :
  (i < n)%nat ->
  list_find (fun y => y = prefix +:+ pretty i) (labels prefix n) =
  Some (i, prefix +:+ pretty i).
Proof.
  intros Hi. apply list_find_Some. split; [apply lookup_labels, Hi|].
  split; [reflexivity|]. intros j y Hy Hj E. subst y.
  rewrite lookup_labels in Hy by lia. injection Hy as Hy.
  apply string_app_inj, (inj pretty) in Hy. lia.
Qed.

(** The object that [simulate_count_data] returns is count data with the
    gene index [GENE0], ... under the key ["gene_names"]. *)
Lemma generated_object (n_gene n_samples max_count : Z) (w : world)
    (adata : AnnData) (w' : world) :
  simulate_count_data n_gene n_samples max_count w = (Ok adata, w') ->
  exists rows,
    object_at w' adata
      (NDArray (Z.to_nat n_gene) (Z.to_nat n_samples) (Ints rows))
      (labelled_frame "samples" "CELL" (Z.to_nat n_gene))
      (labelled_frame "gene_names" "GENE" (Z.to_nat n_samples)) /\
    well_shaped
      (NDArray (Z.to_nat n_gene) (Z.to_nat n_samples) (Ints rows))
      (labelled_frame "samples" "CELL" (Z.to_nat n_gene))
      (labelled_frame "gene_names" "GENE" (Z.to_nat n_samples)) /\
    Forall (Forall (fun x => 0 <= x < 512)) rows.
Proof.
  intros Hrun. destruct (simulate_count_data_Ok_inv _ _ _ _ _ _ Hrun) as [Hg Hs].
  destruct (simulate_count_data_run n_gene n_samples max_count w Hg Hs)
    as (adata' & w'' & rows & Hrun' & HX & Hrect & Hrange & Ho & Hv & _).
  rewrite Hrun in Hrun'. injection Hrun' as <- <-.
  exists rows. split; [split; [exact HX|split; [exact Ho|exact Hv]]|].
  split; [|exact Hrange].
  split; [exact Hrect|]. simpl.
  split; [apply length_labels|]. split; [apply length_labels|].
  apply map_Forall_singleton. apply length_labels.
Qed.

(** * Further properties of the two functions *)

(** X1.  For non-negative dimensions [simulate_count_data] returns an object
    whose matrix is a new integer array of [n_gene] rows and [n_samples]
    columns, whose observations frame has the labels [CELL0], ... (one per
    row) as index and as column ["samples"], and whose variables frame has
    the labels [GENE0], ... (one per column) as index and as column
    ["gene_names"]. *)
Theorem simulate_count_data_shape_and_labels (n_gene n_samples max_count : Z)
    (w : world) :
  0 <= n_gene -> 0 <= n_samples ->
  exists adata w' rows,
    simulate_count_data n_gene n_samples max_count w = (Ok adata, w') /\
    arrays w' !! anndata.X adata =
      Some (NDArray (Z.to_nat n_gene) (Z.to_nat n_samples) (Ints rows)) /\
    rectangular (Z.to_nat n_gene) (Z.to_nat n_samples) rows /\
    frames w' !! anndata.obs adata =
      Some {| index := labels "CELL" (Z.to_nat n_gene);
              columns := {["samples" := labels "CELL" (Z.to_nat n_gene)]} |} /\
    frames w' !! anndata.var adata =
      Some {| index := labels "GENE" (Z.to_nat n_samples);
              columns :=
                {["gene_names" := labels "GENE" (Z.to_nat n_samples)]} |}.
Proof.
  intros Hg Hs.
  destruct (simulate_count_data_run n_gene n_samples max_count w Hg Hs)
    as (adata & w' & rows & Hrun & HX & Hrect & _ & Ho & Hv & _).
  exists adata, w', rows. auto.
Qed.

Lemma simulate_count_data_shape_and_labels_witness :
  exists adata w' rows,
    simulate_count_data 2 3 512 ex_empty_world = (Ok adata, w') /\
    arrays w' !! anndata.X adata =
      Some (NDArray (Z.to_nat 2) (Z.to_nat 3) (Ints rows)) /\
    rectangular (Z.to_nat 2) (Z.to_nat 3) rows /\
    frames w' !! anndata.obs adata =
      Some {| index := labels "CELL" (Z.to_nat 2);
              columns := {["samples" := labels "CELL" (Z.to_nat 2)]} |} /\
    frames w' !! anndata.var adata =
      Some {| index := labels "GENE" (Z.to_nat 3);
              columns := {["gene_names" := labels "GENE" (Z.to_nat 3)]} |}.
Proof.
  apply (simulate_count_data_shape_and_labels 2 3 512 ex_empty_world); lia.
Defined.

(** X2.  [simulate_count_data] returns exactly when both dimensions are
    non-negative, zero included; with a negative dimension it raises the
    [ValueError] of [np.random.randint] before any draw, in the state it
    started in. *)
Theorem simulate_count_data_returns_iff (n_gene n_samples max_count : Z)
    (w : world) :
  ((exists adata w',
      simulate_count_data n_gene n_samples max_count w = (Ok adata, w')) <->
   0 <= n_gene /\ 0 <= n_samples) /\
  (n_gene < 0 \/ n_samples < 0 ->
   simulate_count_data n_gene n_samples max_count w =
   (Raise (ValueError "negative dimensions are not allowed"), w)).
Proof.
  split; [split|].
  - intros (adata & w' & Hrun).
    apply (simulate_count_data_Ok_inv _ _ _ _ _ _ Hrun).
  - intros [Hg Hs].
    destruct (simulate_count_data_run n_gene n_samples max_count w Hg Hs)
      as (adata & w' & rows & Hrun & _).
    exists adata, w'. exact Hrun.
  - apply simulate_count_data_negative.
Qed.

(** X3.  A call of [simulate_count_data] that returns has taken one outcome
    of the generator per entry of the matrix, has printed nothing, has left
    every array and frame that existed as it was, and returns a matrix at a
    location that did not exist. *)
Theorem simulate_count_data_effects (n_gene n_samples max_count : Z)
    (w : world) (adata : AnnData) (w' : world) :
  simulate_count_data n_gene n_samples max_count w = (Ok adata, w') ->
  rng w' =
    {| tape := tape (rng w);
       cursor := cursor (rng w) + Z.to_nat n_gene * Z.to_nat n_samples |} /\
  stdout w' = stdout w /\
  (forall l x, arrays w !! l = Some x -> arrays w' !! l = Some x) /\
  (forall l d, frames w !! l = Some d -> frames w' !! l = Some d) /\
  arrays w !! anndata.X adata = None.
Proof.
  intros Hrun. destruct (simulate_count_data_Ok_inv _ _ _ _ _ _ Hrun) as [Hg Hs].
  destruct (simulate_count_data_run n_gene n_samples max_count w Hg Hs)
    as (adata' & w'' & rows & Hrun' & _ & _ & _ & _ & _ & Ha & Hf & Hnew & Hr & Ho).
  rewrite Hrun in Hrun'. injection Hrun' as <- <-. auto.
Qed.

Lemma simulate_count_data_effects_witness :
  rng (snd (simulate_count_data 2 3 512 ex_world)) =
    {| tape := tape (rng ex_world);
       cursor := cursor (rng ex_world) + Z.to_nat 2 * Z.to_nat 3 |} /\
  stdout (snd (simulate_count_data 2 3 512 ex_world)) = stdout ex_world /\
  (forall l x, arrays ex_world !! l = Some x ->
     arrays (snd (simulate_count_data 2 3 512 ex_world)) !! l = Some x) /\
  (forall l d, frames ex_world !! l = Some d ->
     frames (snd (simulate_count_data 2 3 512 ex_world)) !! l = Some d) /\
  arrays ex_world !! 2%positive = None.
Proof.
  apply (simulate_count_data_effects 2 3 512 ex_world
           {| anndata.X := 2%positive; anndata.obs := 3%positive;
              anndata.var := 4%positive |}).
  vm_compute. reflexivity.
Defined.

(** X4.  In the object that [simulate_count_data] returns, the names of the
    column ["gene_names"] are pairwise distinct, there are [n_samples] of
    them, and [GENE<i>] is among them exactly when [i < n_samples], at
    position [i]. *)
Theorem generated_gene_names (n_gene n_samples max_count : Z) (w : world)
    (adata : AnnData) (w' : world) :
  simulate_count_data n_gene n_samples max_count w = (Ok adata, w') ->
  exists v names,
    frames w' !! anndata.var adata = Some v /\
    columns v !! "gene_names" = Some names /\
    NoDup names /\ length names = Z.to_nat n_samples /\
    forall i : nat,
      ("GENE" +:+ pretty i ∈ names <-> (i < Z.to_nat n_samples)%nat) /\
      ((i < Z.to_nat n_samples)%nat ->
       list_find (fun y => y = "GENE" +:+ pretty i) names =
       Some (i, "GENE" +:+ pretty i)).
Proof.
  intros Hrun. destruct (generated_object _ _ _ _ _ _ Hrun)
    as (rows & (_ & _ & Hv) & _).
  exists (labelled_frame "gene_names" "GENE" (Z.to_nat n_samples)),
         (labels "GENE" (Z.to_nat n_samples)).
  split; [exact Hv|]. split; [apply lookup_singleton_eq|].
  split; [apply NoDup_labels|]. split; [apply length_labels|].
  intros i. split; [apply elem_of_labels|apply list_find_labels].
Qed.

Lemma generated_gene_names_witness :
  exists v names,
    frames (snd (simulate_count_data 5 20 512 ex_empty_world))
      !! 2%positive = Some v /\
    columns v !! "gene_names" = Some names /\
    NoDup names /\ length names = Z.to_nat 20 /\
    forall i : nat,
      ("GENE" +:+ pretty i ∈ names <-> (i < Z.to_nat 20)%nat) /\
      ((i < Z.to_nat 20)%nat ->
       list_find (fun y => y = "GENE" +:+ pretty i) names =
       Some (i, "GENE" +:+ pretty i)).
Proof.
  apply (generated_gene_names 5 20 512 ex_empty_world
           {| anndata.X := 1%positive; anndata.obs := 1%positive;
              anndata.var := 2%positive |}).
  vm_compute. reflexivity.
Defined.



(** X6.  With a known [knock_type], a negative [noise_level] and a matrix
    that has at least one row, a call in which a target resolves raises the
    [ValueError] of [np.random.poisson] ("lam < 0"); the input matrix is as
    it was. *)
Theorem negative_noise_level_rejected (adata : AnnData) (gene_names : string)
    (target_genes : list string) (knock_type : string)
    (fold_change noise_level : Q) (w : world) (a : ndarray) (o v : DataFrame)
    (rows : list (list Z)) (names : list string) :
  object_at w adata a o v -> well_shaped a o v -> data a = Ints rows ->
  columns v !! gene_names = Some names ->
  knock_type = "knock-down" \/ knock_type = "knock-up" ->
  (noise_level < 0)%Q -> (0 < n_rows a)%nat ->
  (exists gene, gene ∈ target_genes /\ gene ∈ names) ->
  exists w',
    perturb_genes_counts adata gene_names target_genes knock_type fold_change
      noise_level w = (Raise (ValueError "lam < 0"), w') /\
    arrays w' !! anndata.X adata = Some a.
Proof.
  intros Hobj Hshape Hdata Hnames Hkind Hnl Hrows Hres.
  assert (Hk : exists k, knock_factor knock_type fold_change = Some k).
  { destruct (knock_factor_cases knock_type fold_change)
      as [[_ Hk]|[[_ Hk]|(H1 & H2 & _)]]; eauto. destruct Hkind; contradiction. }
  destruct Hk as [k Hk].
  rewrite (perturb_genes_counts_run adata gene_names target_genes knock_type
             fold_change noise_level w a o v rows names Hobj Hshape Hdata Hnames).
  destruct (loop_negative_noise adata (copy_of w o) gene_names knock_type
              fold_change noise_level names (n_rows a) (n_cols a) k rows
              target_genes Hk Hnl Hrows Hres _
              (after_copy_inv w adata gene_names a o v rows names
                 Hobj Hshape Hdata Hnames)) as (out & Hrun).
  rewrite Hrun. eexists. split; [reflexivity|].
  simpl. apply (after_copy_arrays w a a o v). apply Hobj.
Qed.

Lemma negative_noise_level_rejected_witness :
  exists w',
    perturb_genes_counts ex_adata "gene_names" ["GENE9"; "GENE1"] "knock-down"
      0.5 (-0.1) ex_world = (Raise (ValueError "lam < 0"), w') /\
    arrays w' !! anndata.X ex_adata = Some ex_matrix.
Proof.
  apply (negative_noise_level_rejected ex_adata "gene_names" ["GENE9"; "GENE1"]
           "knock-down" 0.5 (-0.1) ex_world ex_matrix ex_obs ex_var
           [[3; 10; 17]; [24; 31; 38]] ["GENE0"; "GENE1"; "GENE2"]
           ex_object ex_shape eq_refl ex_gene_index).
  - left. reflexivity.
  - reflexivity.
  - simpl. lia.
  - exists "GENE1". split.
    + apply elem_of_cons. right. apply elem_of_cons. left. reflexivity.
    + apply elem_of_cons. right. apply elem_of_cons. left. reflexivity.
Defined.

(** X7.  The key of the gene index is looked up once per target: when the
    variables frame has no column [gene_names], a call on an integer matrix
    with at least one target raises [KeyError(gene_names)], whatever
    [knock_type] is, and the input matrix is as it was. *)
Theorem missing_gene_index_key (adata : AnnData) (gene_names : string)
    (gene : string) (rest : list string) (knock_type : string)
    (fold_change noise_level : Q) (w : world) (a : ndarray) (o v : DataFrame)
    (rows : list (list Z)) :
  object_at w adata a o v -> data a = Ints rows ->
  columns v !! gene_names = None ->
  exists w',
    perturb_genes_counts adata gene_names (gene :: rest) knock_type
      fold_change noise_level w = (Raise (KeyError gene_names), w') /\
    arrays w' !! anndata.X adata = Some a.
Proof.
  intros Hobj Hdata Hkey. exists (after_copy w a o v). split.
  - unfold perturb_genes_counts.
    rewrite (run_bind_Ok _ _ _ _ _ (copy_run w adata a o v Hobj)).
    rewrite (run_bind_Ok _ _ _ _ _ (read_array_run _ _ _ (after_copy_X w a o v))).
    unfold np.issubdtype_integer. rewrite Hdata. simpl negb. cbv iota.
    apply run_bind_Raise. simpl for_each. apply run_bind_Raise.
    unfold perturb_gene. apply run_bind_Raise.
    unfold pd.column_tolist.
    rewrite (run_bind_Ok _ _ _ _ _
               (read_frame_run _ _ v (after_copy_frames w a o v v _
                                        (proj2 (proj2 Hobj))))).
    rewrite Hkey. reflexivity.
  - apply after_copy_arrays, Hobj.
Qed.

Lemma missing_gene_index_key_witness :
  exists w',
    perturb_genes_counts ex_adata "symbol" ("GENE0" :: []) "knock-down" 0.5
      0.1 ex_world = (Raise (KeyError "symbol"), w') /\
    arrays w' !! anndata.X ex_adata = Some ex_matrix.
Proof.
  apply (missing_gene_index_key ex_adata "symbol" "GENE0" [] "knock-down" 0.5
           0.1 ex_world ex_matrix ex_obs ex_var [[3; 10; 17]; [24; 31; 38]]
           ex_object eq_refl).
  reflexivity.
Defined.

(** X8.  The object a call returns is again count data of the same shape:
    its matrix is an integer array with the numbers of rows and columns of
    the input matrix, and its two frames are equal to those of the input, the
    gene index included, so it can be given to a further call. *)
Theorem returned_object_well_formed (adata : AnnData) (gene_names : string)
    (target_genes : list string) (knock_type : string)
    (fold_change noise_level : Q) (w : world) (a : ndarray) (o v : DataFrame)
    (rows : list (list Z)) (names : list string) (out : AnnData) (w' : world) :
  object_at w adata a o v -> well_shaped a o v -> data a = Ints rows ->
  columns v !! gene_names = Some names ->
  perturb_genes_counts adata gene_names target_genes knock_type fold_change
    noise_level w = (Ok out, w') ->
  exists rows' : list (list Z),
    object_at w' out (NDArray (n_rows a) (n_cols a) (Ints rows')) o v /\
    well_shaped (NDArray (n_rows a) (n_cols a) (Ints rows')) o v.
Proof.
  intros Hobj Hshape Hdata Hnames Hrun.
  rewrite (perturb_genes_counts_run adata gene_names target_genes knock_type
             fold_change noise_level w a o v rows names Hobj Hshape Hdata Hnames)
    in Hrun.
  destruct (for_each target_genes _ (after_copy w a o v)) as [[[]|e] w2] eqn:Hloop;
    [|discriminate].
  injection Hrun as <- <-.
  destruct (loop_result_object adata gene_names target_genes knock_type
              fold_change noise_level w a o v rows names _ _
              Hobj Hshape Hdata Hnames Hloop) as (rows' & H1 & H2 & _).
  exists rows'. auto.
Qed.

Lemma returned_object_well_formed_witness :
  exists rows' : list (list Z),
    object_at
      (snd (perturb_genes_counts ex_adata "gene_names" ["GENE1"] "knock-up"
              0.5 0.1 ex_world))
      {| anndata.X := 2%positive; anndata.obs := 3%positive;
         anndata.var := 4%positive |}
      (NDArray (n_rows ex_matrix) (n_cols ex_matrix) (Ints rows')) ex_obs
      ex_var /\
    well_shaped (NDArray (n_rows ex_matrix) (n_cols ex_matrix) (Ints rows'))
      ex_obs ex_var.
Proof.
  apply (returned_object_well_formed ex_adata "gene_names" ["GENE1"] "knock-up"
           0.5 0.1 ex_world ex_matrix ex_obs ex_var
           [[3; 10; 17]; [24; 31; 38]] ["GENE0"; "GENE1"; "GENE2"] _ _
           ex_object ex_shape eq_refl ex_gene_index).
  vm_compute. reflexivity.
Defined.

(** X9.  Only the first variable that carries a target name is perturbed
    (the position comes from [list.index]): a column whose name also stands
    at an earlier position of the gene index keeps every entry, target or
    not. *)
Theorem later_duplicate_column_unchanged (adata : AnnData)
    (gene_names : string) (target_genes : list string) (knock_type : string)
    (fold_change noise_level : Q) (w : world) (a : ndarray) (o v : DataFrame)
    (rows : list (list Z)) (names : list string) (out : AnnData) (w' : world)
    (j0 j : nat) (g : string) :
  object_at w adata a o v -> well_shaped a o v -> data a = Ints rows ->
  columns v !! gene_names = Some names ->
  perturb_genes_counts adata gene_names target_genes knock_type fold_change
    noise_level w = (Ok out, w') ->
  names !! j0 = Some g -> names !! j = Some g -> (j0 < j)%nat ->
  exists rows',
    arrays w' !! anndata.X out =
      Some (NDArray (n_rows a) (n_cols a) (Ints rows')) /\
    forall i, entry rows' i j = entry rows i j.
Proof.
  intros Hobj Hshape Hdata Hnames Hrun Hj0 Hj Hlt.
  destruct (call_preserves (fun rows' => forall i, entry rows' i j = entry rows i j)
              adata gene_names target_genes knock_type fold_change noise_level
              w a o v rows names out w' Hobj Hshape Hdata Hnames) as (_ & H);
    [|reflexivity|exact Hrun|exact H].
  intros rows1 gene j' k noise IH Hin Hfind _ Hlen Hnoise _ i.
  rewrite <- IH. apply entry_write_column_ne.
  - rewrite length_new_counts; unfold column; rewrite length_fmap; congruence.
  - intros ->. apply list_find_Some in Hfind as (Hj' & _ & Hmin).
    assert (gene = g) by congruence. subst gene.
    exact (Hmin j0 g Hj0 Hlt eq_refl).
Qed.

Lemma later_duplicate_column_unchanged_witness :
  exists rows',
    arrays (snd (perturb_genes_counts ex_adata "gene_names" ["GENE0"]
                   "knock-up" 0.5 0.1 ex_dup_world)) !! 2%positive =
      Some (NDArray (n_rows ex_matrix) (n_cols ex_matrix) (Ints rows')) /\
    forall i, entry rows' i 2 = entry [[3; 10; 17]; [24; 31; 38]] i 2.
Proof.
  apply (later_duplicate_column_unchanged ex_adata "gene_names" ["GENE0"]
           "knock-up" 0.5 0.1 ex_dup_world ex_matrix ex_obs ex_dup_var
           [[3; 10; 17]; [24; 31; 38]] ["GENE0"; "GENE1"; "GENE0"]
           {| anndata.X := 2%positive; anndata.obs := 3%positive;
              anndata.var := 4%positive |} _ 0%nat 2%nat "GENE0").
  - repeat split.
  - split; [|split; [reflexivity|split; [reflexivity|]]].
    + split; [reflexivity|]. repeat constructor.
    + apply map_Forall_singleton. reflexivity.
  - reflexivity.
  - reflexivity.
  - vm_compute. reflexivity.
  - reflexivity.
  - reflexivity.
  - lia.
Defined.





(** X12.  Calls compose: perturbing the targets [targets1], then, in a second
    call on the returned object, the targets [targets2], gives the matrix,
    the generator state and the printed lines that one call with the targets
    [targets1 ++ targets2] gives. *)
Theorem perturb_in_two_calls (adata : AnnData) (gene_names : string)
    (targets1 targets2 : list string) (knock_type : string)
    (fold_change noise_level : Q) (w : world) (a : ndarray) (o v : DataFrame)
    (rows : list (list Z)) (names : list string) (mid : AnnData) (w1 : world)
    (out2 : AnnData) (w2 : world) :
  object_at w adata a o v -> well_shaped a o v -> data a = Ints rows ->
  columns v !! gene_names = Some names ->
  perturb_genes_counts adata gene_names targets1 knock_type fold_change
    noise_level w = (Ok mid, w1) ->
  perturb_genes_counts mid gene_names targets2 knock_type fold_change
    noise_level w1 = (Ok out2, w2) ->
  exists out w',
    perturb_genes_counts adata gene_names (targets1 ++ targets2) knock_type
      fold_change noise_level w = (Ok out, w') /\
    arrays w' !! anndata.X out = arrays w2 !! anndata.X out2 /\
    rng w' = rng w2 /\ stdout w' = stdout w2.
Proof.
  intros Hobj Hshape Hdata Hnames Hrun1 Hrun2.
  (* the first call *)
  rewrite (perturb_genes_counts_run adata gene_names targets1 knock_type
             fold_change noise_level w a o v rows names Hobj Hshape Hdata Hnames)
    in Hrun1.
  destruct (for_each targets1 _ (after_copy w a o v)) as [[[]|e] w1'] eqn:Hloop1;
    [|discriminate].
  injection Hrun1 as <- <-.
  destruct (loop_result_object adata gene_names targets1 knock_type fold_change
              noise_level w a o v rows names _ _ Hobj Hshape Hdata Hnames Hloop1)
    as (rows1 & Hobj1 & Hshape1 & Hinv1).
  (* the second call *)
  pose proof (after_copy_inv w1' (copy_of w o) gene_names _ o v rows1 names
                Hobj1 Hshape1 eq_refl Hnames) as Hinv2.
  rewrite (perturb_genes_counts_run (copy_of w o) gene_names targets2 knock_type
             fold_change noise_level w1' _ o v rows1 names
             Hobj1 Hshape1 eq_refl Hnames) in Hrun2.
  destruct (for_each targets2 _ (after_copy w1' _ o v)) as [[[]|e] w2'] eqn:Hloop2;
    [|discriminate].
  injection Hrun2 as <- <-.
  (* the single call *)
  rewrite (perturb_genes_counts_run adata gene_names (targets1 ++ targets2)
             knock_type fold_change noise_level w a o v rows names
             Hobj Hshape Hdata Hnames).
  rewrite for_each_app, Hloop1.
  destruct (for_each targets2
              (perturb_gene adata (copy_of w o) (anndata.X (copy_of w o))
                 gene_names knock_type fold_change noise_level) w1')
    as [r w'] eqn:Hloop.
  cbn [n_rows n_cols] in Hinv2.
  destruct (loop_simulation adata (copy_of w o) (copy_of w o) (copy_of w1' o)
              gene_names knock_type fold_change noise_level names (n_rows a)
              (n_cols a) targets2 _ _ rows1 _ _ _ _ Hinv1 Hinv2
              eq_refl eq_refl Hloop Hloop2)
    as (-> & Hrng & Hout & rows' & HX1 & HX2).
  exists (copy_of w o), w'. split; [reflexivity|].
  split; [congruence|]. split; [exact Hrng|exact Hout].
Qed.

Lemma perturb_in_two_calls_witness :
  exists out w',
    perturb_genes_counts ex_adata "gene_names" (["GENE1"; "GENE7"] ++ ["GENE1"])
      "knock-up" 0.5 0.1 ex_world = (Ok out, w') /\
    arrays w' !! anndata.X out =
      arrays (snd (perturb_genes_counts
                     {| anndata.X := 2%positive; anndata.obs := 3%positive;
                        anndata.var := 4%positive |} "gene_names" ["GENE1"]
                     "knock-up" 0.5 0.1
                     (snd (perturb_genes_counts ex_adata "gene_names"
                             ["GENE1"; "GENE7"] "knock-up" 0.5 0.1 ex_world))))
        !! 3%positive /\
    rng w' =
      rng (snd (perturb_genes_counts
                  {| anndata.X := 2%positive; anndata.obs := 3%positive;
                     anndata.var := 4%positive |} "gene_names" ["GENE1"]
                  "knock-up" 0.5 0.1
                  (snd (perturb_genes_counts ex_adata "gene_names"
                          ["GENE1"; "GENE7"] "knock-up" 0.5 0.1 ex_world)))) /\
    stdout w' =
      stdout (snd (perturb_genes_counts
                     {| anndata.X := 2%positive; anndata.obs := 3%positive;
                        anndata.var := 4%positive |} "gene_names" ["GENE1"]
                     "knock-up" 0.5 0.1
                     (snd (perturb_genes_counts ex_adata "gene_names"
                             ["GENE1"; "GENE7"] "knock-up" 0.5 0.1 ex_world)))).
Proof.
  apply (perturb_in_two_calls ex_adata "gene_names" ["GENE1"; "GENE7"]
           ["GENE1"] "knock-up" 0.5 0.1 ex_world ex_matrix ex_obs ex_var
           [[3; 10; 17]; [24; 31; 38]] ["GENE0"; "GENE1"; "GENE2"]
           {| anndata.X := 2%positive; anndata.obs := 3%positive;
              anndata.var := 4%positive |}
           (snd (perturb_genes_counts ex_adata "gene_names" ["GENE1"; "GENE7"]
                   "knock-up" 0.5 0.1 ex_world))
           {| anndata.X := 3%positive; anndata.obs := 5%positive;
              anndata.var := 6%positive |} _
           ex_object ex_shape eq_refl ex_gene_index).
  - vm_compute. reflexivity.
  - vm_compute. reflexivity.
Defined.



(** The lines a loop that ends normally has printed: one per target that is
    not in the gene index, in the order of the targets. *)
Lemma loop_stdout (adata p : AnnData) (gene_names knock_type : string)
    (fold_change noise_level : Q) (names : list string) (n m : nat)
    (targets : list string) :
  forall w rows w',
    loop_inv adata p gene_names names n m w rows ->
    for_each targets
      (perturb_gene adata p (anndata.X p) gene_names knock_type fold_change
         noise_level) w = (Ok tt, w') ->
    stdout w' =
    stdout w ++ (missing_line <$> filter (fun g => g ∉ names) targets).
Proof.
  induction targets as [|gene targets IH]; intros w rows w' Hinv Hrun.
  { simpl in Hrun. injection Hrun as <-. simpl. rewrite app_nil_r. reflexivity. }
  simpl in Hrun. rewrite run_bind in Hrun.
  destruct (decide (gene ∈ names)) as [Hin|Hout].
  2:{ rewrite (step_missing adata p gene_names knock_type fold_change
                 noise_level names n m w rows gene Hinv Hout) in Hrun.
      apply (IH _ _ _ (loop_inv_print _ _ _ _ _ _ w rows _ Hinv)) in Hrun.
      rewrite Hrun, filter_cons_True by exact Hout. simpl.
      rewrite <- app_assoc. reflexivity. }
  rewrite filter_cons_False by (intros H; exact (H Hin)).
  destruct (list_find (fun y => y = gene) names) as [[j g]|] eqn:Hfind.
  2:{ apply list_find_None in Hfind. rewrite Forall_forall in Hfind.
      exfalso. exact (Hfind gene Hin eq_refl). }
  assert (g = gene) as -> by (apply list_find_Some in Hfind; tauto).
  destruct (knock_factor_cases knock_type fold_change)
    as [[_ Hk]|[[_ Hk]|(H1 & H2 & _)]].
  3:{ rewrite (step_bad_kind adata p gene_names knock_type fold_change
                 noise_level names n m w rows gene Hinv Hin H1 H2) in Hrun.
      discriminate. }
  all: destruct (step_found adata p gene_names knock_type fold_change
                   noise_level names n m w rows gene j _ Hinv Hfind Hk)
         as [[_ Hb]|(noise & c & _ & Hlen & _ & Hb)];
       rewrite Hb in Hrun; [discriminate|].
  all: eapply IH in Hrun; [exact Hrun|].
  all: apply (loop_inv_put_rows _ _ _ _ _ _ w rows _ _ Hinv);
       [rewrite length_write_column; [apply (inv_rows _ _ _ _ _ _ _ _ Hinv)|];
        rewrite length_new_counts; unfold column; rewrite length_fmap;
        [reflexivity|rewrite (inv_rows _ _ _ _ _ _ _ _ Hinv); exact Hlen]
       |apply width_write_column, (inv_width _ _ _ _ _ _ _ _ Hinv)].
Qed.

(** X14.  A call that returns has printed exactly one line per target name
    that is not in the gene index, in the order of the target list and once
    per occurrence, and nothing for a target that resolves. *)
Theorem printed_lines (adata : AnnData) (gene_names : string)
    (target_genes : list string) (knock_type : string)
    (fold_change noise_level : Q) (w : world) (a : ndarray) (o v : DataFrame)
    (rows : list (list Z)) (names : list string) (out : AnnData) (w' : world) :
  object_at w adata a o v -> well_shaped a o v -> data a = Ints rows ->
  columns v !! gene_names = Some names ->
  perturb_genes_counts adata gene_names target_genes knock_type fold_change
    noise_level w = (Ok out, w') ->
  stdout w' =
  stdout w ++
  ((fun gene => "Gene " +:+ gene +:+ " not found in the dataset!") <$>
     filter (fun gene => gene ∉ names) target_genes).
Proof.
  intros Hobj Hshape Hdata Hnames Hrun.
  rewrite (perturb_genes_counts_run adata gene_names target_genes knock_type
             fold_change noise_level w a o v rows names Hobj Hshape Hdata Hnames)
    in Hrun.
  destruct (for_each target_genes _ (after_copy w a o v)) as [[[]|e] w2] eqn:Hloop;
    [|discriminate].
  injection Hrun as _ <-.
  apply (loop_stdout adata (copy_of w o) gene_names knock_type fold_change
           noise_level names (n_rows a) (n_cols a) target_genes _ rows _
           (after_copy_inv w adata gene_names a o v rows names
              Hobj Hshape Hdata Hnames)) in Hloop.
  exact Hloop.
Qed.

Lemma printed_lines_witness :
  stdout (snd (perturb_genes_counts ex_adata "gene_names"
                 ["GENE7"; "GENE1"; "GENE9"; "GENE7"] "knock-up" 0.5 0.1
                 ex_world)) =
  stdout ex_world ++
  ((fun gene => "Gene " +:+ gene +:+ " not found in the dataset!") <$>
     filter (fun gene => gene ∉ ["GENE0"; "GENE1"; "GENE2"])
       ["GENE7"; "GENE1"; "GENE9"; "GENE7"]).
Proof.
  apply (printed_lines ex_adata "gene_names"
           ["GENE7"; "GENE1"; "GENE9"; "GENE7"] "knock-up" 0.5 0.1 ex_world
           ex_matrix ex_obs ex_var [[3; 10; 17]; [24; 31; 38]]
           ["GENE0"; "GENE1"; "GENE2"]
           {| anndata.X := 2%positive; anndata.obs := 3%positive;
              anndata.var := 4%positive |} _
           ex_object ex_shape eq_refl ex_gene_index).
  vm_compute. reflexivity.
Defined.
